(** * LeetCodeMCP: the tool server of [main.py], embedded and verified.

    The file follows [main.py]:
    - [PyStr]: the [str] operations the identifier normaliser uses
      ([find], slicing, [in], [replace]);
    - [_folder_name_to_problem_id]: the identifier normaliser;
    - [json] and [Py]: the values a response body decodes to, with the Python
      operations applied to them (subscript, iteration, truthiness, [==]);
    - [request], [reply], [host]: the GraphQL endpoint as a function of the
      requests made so far, [pathlib] and the disk; every tool threads the
      log of the requests it makes;
    - the tools themselves, against an arbitrary host. A loop or a recursion
      that need not end takes fuel, and [OutOfFuel] marks a call still running.

    Python [str] values are modelled as [string], the UTF-8 bytes of the text.
    Every needle searched for below is ASCII, and an ASCII byte never occurs
    inside the encoding of another code point, so searching, slicing after a
    match and replacing commute with the encoding.

    The two endpoint URLs of [main.py] (with and without the final slash) are
    one endpoint here: the operations sent to each are distinct constructors
    of [request]. *)

From Stdlib Require Import String Ascii List ZArith Bool Lia.
Import ListNotations.

Set Warnings "-register-all".

Local Open Scope string_scope.
Local Open Scope Z_scope.
Local Open Scope list_scope.

(** ** Python string operations *)

Module PyStr.

(** [s.find(sub)]: index of the first occurrence, [-1] when there is none. *)
Fixpoint find (sub s : string) : Z :=
  if prefix sub s then 0
  else match s with
       | EmptyString => -1
       | String _ s' => let r := find sub s' in if r <? 0 then -1 else r + 1
       end.

Fixpoint drop (n : nat) (s : string) : string :=
  match n, s with
  | O, _ => s
  | S _, EmptyString => EmptyString
  | S n', String _ s' => drop n' s'
  end.

(** [s[i:]]: a negative [i] counts from the end and is clamped at the start. *)
Definition slice_from (s : string) (i : Z) : string :=
  if i <? 0 then drop (Z.to_nat (Z.max 0 (Z.of_nat (String.length s) + i))) s
  else drop (Z.to_nat i) s.

(** [sub in s]. *)
Fixpoint contains (sub s : string) : bool :=
  prefix sub s ||
  match s with
  | EmptyString => false
  | String _ s' => contains sub s'
  end.

(** [s.replace(old, new)] for a non-empty [old]: occurrences are taken from
    the left and do not overlap. [skip] counts the characters of a match
    still to be passed over. *)
Fixpoint replace_from (skip : nat) (old new s : string) : string :=
  match s with
  | EmptyString => EmptyString
  | String c s' =>
      match skip with
      | S k => replace_from k old new s'
      | O =>
          if prefix old s
          then (new ++ replace_from (Nat.pred (String.length old)) old new s')%string
          else String c (replace_from 0 old new s')
      end
  end.

Definition replace (old new s : string) : string := replace_from 0 old new s.

(** Occurrence of a single character. *)
Fixpoint has_char (c : ascii) (s : string) : bool :=
  match s with
  | EmptyString => false
  | String d s' => Ascii.eqb d c || has_char c s'
  end.

End PyStr.

(** ** Identifier normaliser (main.py, [_folder_name_to_problem_id]) *)

Definition strip_prefix (folder_name : string) : string :=
  PyStr.slice_from folder_name (PyStr.find "_" folder_name + 1).

Definition dunder_to_dot (question_id : string) : string :=
  if PyStr.contains "__" question_id
  then PyStr.replace "__" "." question_id else question_id.

Definition underscore_to_space (question_id : string) : string :=
  if PyStr.contains "_" question_id
  then PyStr.replace "_" " " question_id else question_id.

Definition jz_offer (question_id : string) : string :=
  if PyStr.contains "JZ_Offer" question_id
  then PyStr.replace "JZ_Offer" "剑指Offer" question_id else question_id.

Definition interview (question_id : string) : string :=
  if PyStr.contains "Interview" question_id
  then PyStr.replace "Interview" "面试题" question_id else question_id.

Definition _folder_name_to_problem_id (folder_name : string) : string :=
  let question_id := strip_prefix folder_name in
  let question_id := dunder_to_dot question_id in
  let question_id := underscore_to_space question_id in
  let question_id := jz_offer question_id in
  let question_id := interview question_id in
  question_id.


(** ** JSON values and the Python operations applied to them

    A decoded response body. Numbers are kept as integers: every operation
    applied below (truthiness, comparison with a [str], subscripting) treats a
    non-integral number like a non-zero integer. *)

Inductive json : Type :=
| JNull
| JBool (b : bool)
| JNum (n : Z)
| JStr (s : string)
| JArr (items : list json)
| JObj (fields : list (string * json)).

(** [JObj] holds a decoded [dict]: its keys are distinct, so which of two
    equal keys a lookup would prefer never matters. *)

Module Py.

(** Operations that can raise return [option]; [None] is the exception. *)
Definition bind {A B : Type} (x : option A) (k : A -> option B) : option B :=
  match x with
  | Some a => k a
  | None => None
  end.

Fixpoint assoc (k : string) (fields : list (string * json)) : option json :=
  match fields with
  | [] => None
  | (k', v) :: rest => if String.eqb k' k then Some v else assoc k rest
  end.

(** [v[k]] with a [str] key: [KeyError] on a dict without the key,
    [TypeError] on everything that is not a dict. *)
Definition getitem (v : json) (k : string) : option json :=
  match v with
  | JObj fields => assoc k fields
  | _ => None
  end.

(** [for x in v]: a list yields its items, a dict its keys, a [str] its
    characters; [None], booleans and numbers raise [TypeError]. *)
Definition iter (v : json) : option (list json) :=
  match v with
  | JArr items => Some items
  | JObj fields => Some (map (fun kv => JStr (fst kv)) fields)
  | JStr s => Some (map (fun c => JStr (String c EmptyString)) (list_ascii_of_string s))
  | _ => None
  end.

(** [bool(v)]. *)
Definition truthy (v : json) : bool :=
  match v with
  | JNull => false
  | JBool b => b
  | JNum n => negb (n =? 0)
  | JStr s => negb (String.eqb s EmptyString)
  | JArr items => match items with [] => false | _ => true end
  | JObj fields => match fields with [] => false | _ => true end
  end.

(** [v == s] for a [str] [s]. *)
Definition eq_str (v : json) (s : string) : bool :=
  match v with
  | JStr t => String.eqb t s
  | _ => false
  end.

(** [k in v] for a [str] [k]. *)
Definition contains (k : string) (v : json) : option bool :=
  match v with
  | JObj fields => Some (match assoc k fields with Some _ => true | None => false end)
  | JArr items => Some (existsb (fun x => eq_str x k) items)
  | JStr s => Some (PyStr.contains k s)
  | _ => None
  end.

End Py.

Notation "x <- e ;; k" := (Py.bind e (fun x => k))
  (at level 61, e at next level, right associativity).

(** ** The remote endpoint and the local host *)

(** One POST per constructor, named after its [operationName], carrying the
    variables that vary (the query text, [categorySlug], [filters], [orderBy],
    [first = 15], [skip = 0], [tagSlugs] and the timeout are constants). *)
Inductive request : Type :=
| ProblemsetQuestionListV2 (searchKeyword : string) (skip limit : Z)
| QuestionTopicsList (questionSlug : json) (userInput : string)
| DiscussTopic (slug : json)
| QuestionTranslations (titleSlug : string)
| QuestionContent (titleSlug : string).

(** What [client.post], [raise_for_status] and [.json()] give together: a
    decoded body, or an exception from any of the three. *)
Inductive reply : Type :=
| Fails
| Body (body : json).

(** [exists()] and [read_text()] of a path. *)
Inductive file : Type :=
| Absent
| Text (contents : string)
| Unreadable.

(** The process environment: the [LANGUAGE] setting, the endpoint (its answer
    may depend on every request made so far), [pathlib] on path strings and
    the disk. *)
Record host : Type := Host {
  LANGUAGE : string;
  endpoint : list request -> request -> reply;
  path_parent : string -> string;
  path_name : string -> string;
  path_join : string -> string -> string;
  disk : string -> file
}.

(** How a call ends. [OutOfFuel] stands for a call that has not ended within
    its budget. *)
Inductive outcome : Type :=
| Return (v : json)
| Raise
| OutOfFuel.

Definition WANTED_AUTHORS : list (string * string) :=
  [("宫水三叶", "ac_oier"); ("灵茶山艾府", "endlesscheng")].

Definition NO_SLUG : string := "No slug found".
Definition NO_DESCRIPTION : string := "No description found".
Definition NO_ARTICLE : string := "No solution article found".
Definition ARTICLE_ERROR : string := "Error fetching solution article".

Definition page_size : Z := 100.

(** How one page of the question list ends the loop body. *)
Inductive page_result : Type :=
| Found (v : json)
| More
| Last.

Section Tools.

Variable h : host.

Definition post (req : request) (log : list request) : reply * list request :=
  (endpoint h log req, log ++ [req]).

(** *** [_get_leetcode_question_desc_by_slug] *)

Definition desc_request (slug : string) : request :=
  if String.eqb (LANGUAGE h) "zh-CN" then QuestionTranslations slug
  else QuestionContent slug.

Definition resp_key : string :=
  if String.eqb (LANGUAGE h) "zh-CN" then "translatedContent" else "content".

Definition read_desc (body : json) : option json :=
  data <- Py.getitem body "data" ;;
  question <- Py.getitem data "question" ;;
  Py.getitem question resp_key.

Definition _get_leetcode_question_desc_by_slug (slug : string)
    (log : list request) : outcome * list request :=
  let (r, log) := post (desc_request slug) log in
  match r with
  | Fails => (Return (JStr NO_DESCRIPTION), log)
  | Body body =>
      match read_desc body with
      | Some v => (Return v, log)
      | None => (Return (JStr NO_DESCRIPTION), log)
      end
  end.

(** *** [_get_leetcode_article] *)

Definition read_article (body : json) : option json :=
  data <- Py.getitem body "data" ;;
  article_data <- Py.getitem data "solutionArticle" ;;
  if Py.truthy article_data then
    has <- Py.contains "content" article_data ;;
    if (has : bool) then Py.getitem article_data "content" else Some JNull
  else Some JNull.

Definition _get_leetcode_article (article_slug : json)
    (log : list request) : json * list request :=
  let (r, log) := post (DiscussTopic article_slug) log in
  match r with
  | Fails => (JNull, log)
  | Body body =>
      match read_article body with
      | Some v => (v, log)
      | None => (JNull, log)
      end
  end.

(** *** [find_leetcode_question_slug_by_problem_id] *)

(** The [for question in ...] loop: [None] when a subscript raises,
    [Some None] when the loop ends without a [return]. *)
Fixpoint scan_questions (frontend_problem_id : string) (questions : list json)
    : option (option json) :=
  match questions with
  | [] => Some None
  | question :: rest =>
      fid <- Py.getitem question "questionFrontendId" ;;
      if Py.eq_str fid frontend_problem_id
      then (slug <- Py.getitem question "titleSlug" ;; Some (Some slug))
      else scan_questions frontend_problem_id rest
  end.

Definition read_page (frontend_problem_id : string) (body : json)
    : option page_result :=
  data <- Py.getitem body "data" ;;
  res_dict <- Py.getitem data "problemsetQuestionListV2" ;;
  qs <- Py.getitem res_dict "questions" ;;
  questions <- Py.iter qs ;;
  hit <- scan_questions frontend_problem_id questions ;;
  match hit with
  | Some slug => Some (Found slug)
  | None =>
      has_more <- Py.getitem res_dict "hasMore" ;;
      Some (if Py.truthy has_more then More else Last)
  end.

Definition page_request (frontend_problem_id : string) (page_no : nat) : request :=
  ProblemsetQuestionListV2 frontend_problem_id (Z.of_nat page_no * page_size) page_size.

(** The [while True] loop from [page_no] on; one unit of fuel per page. *)
Fixpoint find_slug_from (fuel : nat) (frontend_problem_id : string)
    (page_no : nat) (log : list request) : outcome * list request :=
  match fuel with
  | O => (OutOfFuel, log)
  | S fuel' =>
      let (r, log) := post (page_request frontend_problem_id page_no) log in
      match r with
      | Fails => (Return (JStr NO_SLUG), log)
      | Body body =>
          match read_page frontend_problem_id body with
          | None => (Return (JStr NO_SLUG), log)
          | Some (Found slug) => (Return slug, log)
          | Some Last => (Return (JStr NO_SLUG), log)
          | Some More => find_slug_from fuel' frontend_problem_id (S page_no) log
          end
      end
  end.

Definition find_leetcode_question_slug_by_problem_id (fuel : nat)
    (frontend_problem_id : string) (log : list request)
    : outcome * list request :=
  find_slug_from fuel frontend_problem_id 0 log.

(** *** [find_leetcode_question_slug] *)

Definition find_leetcode_question_slug (fuel : nat) (file_path : string)
    (log : list request) : outcome * list request :=
  let dir_path := path_parent h file_path in
  let keyword := _folder_name_to_problem_id (path_name h dir_path) in
  find_leetcode_question_slug_by_problem_id fuel keyword log.

(** *** [get_leetcode_question_solution_by_problem_id] *)

Definition read_edges (body : json) : option (list json) :=
  data <- Py.getitem body "data" ;;
  listing <- Py.getitem data "questionSolutionArticles" ;;
  edges <- Py.getitem listing "edges" ;;
  Py.iter edges.

Definition read_profile (article : json) : option json :=
  node <- Py.getitem article "node" ;;
  author <- Py.getitem node "author" ;;
  Py.getitem author "profile".

(** [profile["realName"] == author_name or profile["userSlug"] == author_slug]:
    the second subscript is evaluated only when the first test fails. *)
Definition author_matches (profile : json) (author_name author_slug : string)
    : option bool :=
  real_name <- Py.getitem profile "realName" ;;
  if Py.eq_str real_name author_name then Some true
  else (user_slug <- Py.getitem profile "userSlug" ;;
        Some (Py.eq_str user_slug author_slug)).

Definition read_article_slug (article : json) : option json :=
  node <- Py.getitem article "node" ;;
  Py.getitem node "slug".

(** The [for article in articles] loop: [None] when an exception leaves the
    [try] block, [Some None] when the loop ends without a [return]. *)
Fixpoint scan_articles (author_name author_slug : string)
    (articles : list json) (log : list request)
    : option (option json) * list request :=
  match articles with
  | [] => (Some None, log)
  | article :: rest =>
      match read_profile article with
      | None => (None, log)
      | Some profile =>
          match author_matches profile author_name author_slug with
          | None => (None, log)
          | Some false => scan_articles author_name author_slug rest log
          | Some true =>
              match read_article_slug article with
              | None => (None, log)
              | Some article_slug =>
                  let (content, log) := _get_leetcode_article article_slug log in
                  if Py.truthy content then (Some (Some content), log)
                  else scan_articles author_name author_slug rest log
              end
          end
      end
  end.

(** The [for author_name, author_slug in ...] loop; an exception inside the
    [try] is logged and the next author is tried. *)
Fixpoint try_authors (slug : json) (authors : list (string * string))
    (log : list request) : outcome * list request :=
  match authors with
  | [] => (Return (JStr ARTICLE_ERROR), log)
  | (author_name, author_slug) :: rest =>
      let (r, log) := post (QuestionTopicsList slug author_name) log in
      match r with
      | Fails => try_authors slug rest log
      | Body body =>
          match read_edges body with
          | None => try_authors slug rest log
          | Some articles =>
              match scan_articles author_name author_slug articles log with
              | (Some (Some content), log) => (Return content, log)
              | (_, log) => try_authors slug rest log
              end
          end
      end
  end.

Definition get_leetcode_question_solution_by_problem_id (fuel : nat)
    (problem_id : string) (log : list request) : outcome * list request :=
  match find_leetcode_question_slug_by_problem_id fuel problem_id log with
  | (Return slug, log) =>
      if Py.eq_str slug NO_SLUG then (Return (JStr NO_ARTICLE), log)
      else try_authors slug WANTED_AUTHORS log
  | stopped => stopped
  end.

(** *** [get_leetcode_question_solution] *)

Definition get_leetcode_question_solution (fuel : nat) (file_path : string)
    (log : list request) : outcome * list request :=
  let dir_path := path_parent h file_path in
  let problem_id := _folder_name_to_problem_id (path_name h dir_path) in
  get_leetcode_question_solution_by_problem_id fuel problem_id log.

(** *** [get_leetcode_question_desc] *)

Definition problem_file_name : string :=
  if String.eqb (LANGUAGE h) "zh-CN" then "problem_zh.md" else "problem.md".

(** One unit of fuel per call of the function on itself; the slug lookup of
    each call gets the whole budget. [Path(slug)] raises [TypeError] when
    the slug is not a [str]; [read_text] raises on an unreadable file.
    A chain of self-calls that outlasts the budget has returned nothing:
    the interpreter ends such a chain with [RecursionError] at its recursion
    limit, which is not modelled, so what is proved of this function is
    about the values it returns and the requests it makes. *)
Fixpoint get_leetcode_question_desc (fuel : nat) (file_path : string)
    (log : list request) : outcome * list request :=
  match fuel with
  | O => (OutOfFuel, log)
  | S fuel' =>
      let dir_path := path_parent h file_path in
      let problem_file_path := path_join h dir_path problem_file_name in
      match disk h problem_file_path with
      | Text contents => (Return (JStr contents), log)
      | Unreadable => (Raise, log)
      | Absent =>
          match find_leetcode_question_slug fuel file_path log with
          | (Return (JStr slug), log) => get_leetcode_question_desc fuel' slug log
          | (Return _, log) => (Raise, log)
          | stopped => stopped
          end
      end
  end.

(** *** [get_leetcode_question_desc_by_problem_id] *)

Definition get_leetcode_question_desc_by_problem_id (problem_id : string)
    (log : list request) : outcome * list request :=
  _get_leetcode_question_desc_by_slug problem_id log.

End Tools.

(** ** A plain POSIX instance of the path operations

    Enough of [pathlib] for the examples: components separated by [/], empty
    and [.] components dropped, [.] for the empty relative path. *)

Module Posix.

Fixpoint split (cur : string) (s : string) : list string :=
  match s with
  | EmptyString => [cur]
  | String c s' =>
      if Ascii.eqb c "/"%char then cur :: split EmptyString s'
      else split (cur ++ String c EmptyString)%string s'
  end.

Definition parts (p : string) : list string :=
  filter (fun c => negb (String.eqb c EmptyString || String.eqb c "."))
         (split EmptyString p).

Definition absolute (p : string) : bool := prefix "/" p.

Definition render (abs : bool) (ps : list string) : string :=
  match abs, ps with
  | true, _ => ("/" ++ String.concat "/" ps)%string
  | false, [] => "."
  | false, _ => String.concat "/" ps
  end.

Definition parent (p : string) : string :=
  render (absolute p) (removelast (parts p)).

Definition name (p : string) : string := last (parts p) EmptyString.

Definition join (dir file_name : string) : string :=
  render (absolute dir) (parts dir ++ parts file_name).

End Posix.

(** ** Well-formed responses, as typed data

    The shapes the queries ask for. A body may carry any further fields. *)

Record question : Type := Question {
  questionFrontendId : string;
  titleSlug : string
}.

Record page : Type := Page {
  questions : list question;
  hasMore : bool
}.

Definition question_item (q : question) (item : json) : Prop :=
  Py.getitem item "questionFrontendId" = Some (JStr (questionFrontendId q)) /\
  Py.getitem item "titleSlug" = Some (JStr (titleSlug q)).

Definition page_body (p : page) (body : json) : Prop :=
  exists data res_dict items,
    Py.getitem body "data" = Some data /\
    Py.getitem data "problemsetQuestionListV2" = Some res_dict /\
    Py.getitem res_dict "questions" = Some (JArr items) /\
    Forall2 question_item (questions p) items /\
    Py.getitem res_dict "hasMore" = Some (JBool (hasMore p)).

Definition no_match (frontend_problem_id : string) (qs : list question) : Prop :=
  Forall (fun q => questionFrontendId q <> frontend_problem_id) qs.

(** The first [n] page requests of one lookup, and the reply to the [k]-th
    of them when the lookup starts from the log [l0]. *)
Definition page_requests (frontend_problem_id : string) (n : nat) : list request :=
  map (page_request frontend_problem_id) (seq 0 n).

Definition served (h : host) (frontend_problem_id : string)
    (l0 : list request) (k : nat) : reply :=
  endpoint h (l0 ++ page_requests frontend_problem_id k)
           (page_request frontend_problem_id k).

(** The requests of pages [start], ..., [start + n - 1]. *)
Definition requests_from (frontend_problem_id : string) (start n : nat)
    : list request :=
  map (page_request frontend_problem_id) (seq start n).

(** A page without a match that announces a further page. *)
Definition turns_page (frontend_problem_id : string) (r : reply) : Prop :=
  exists body p,
    r = Body body /\ page_body p body /\
    no_match frontend_problem_id (questions p) /\ hasMore p = true.

(** An exception inside the [try] while a page is fetched and read. *)
Definition fetch_raises (frontend_problem_id : string) (r : reply) : Prop :=
  r = Fails \/ exists body, r = Body body /\ read_page frontend_problem_id body = None.

(** The reply announces a further page. *)
Definition reports_more (r : reply) : Prop :=
  exists body data res_dict has_more,
    r = Body body /\
    Py.getitem body "data" = Some data /\
    Py.getitem data "problemsetQuestionListV2" = Some res_dict /\
    Py.getitem res_dict "hasMore" = Some has_more /\
    Py.truthy has_more = true.

Record article : Type := Article {
  realName : string;
  userSlug : string;
  articleSlug : string
}.

(** What the endpoint holds for one question: the articles listed for a
    search term, and the text of an article ([None]: the fetch fails). *)
Record catalogue : Type := Catalogue {
  listing : string -> list article;
  content : string -> option string
}.

Definition article_item (a : article) (item : json) : Prop :=
  exists node author profile,
    Py.getitem item "node" = Some node /\
    Py.getitem node "author" = Some author /\
    Py.getitem author "profile" = Some profile /\
    Py.getitem profile "realName" = Some (JStr (realName a)) /\
    Py.getitem profile "userSlug" = Some (JStr (userSlug a)) /\
    Py.getitem node "slug" = Some (JStr (articleSlug a)).

Definition listing_body (arts : list article) (body : json) : Prop :=
  exists data found items,
    Py.getitem body "data" = Some data /\
    Py.getitem data "questionSolutionArticles" = Some found /\
    Py.getitem found "edges" = Some (JArr items) /\
    Forall2 article_item arts items.

Definition content_reply (text : option string) (r : reply) : Prop :=
  match text with
  | None => r = Fails
  | Some t =>
      exists body data fields,
        r = Body body /\
        Py.getitem body "data" = Some data /\
        Py.getitem data "solutionArticle" = Some (JObj fields) /\
        Py.assoc "content" fields = Some (JStr t)
  end.

Definition serves (h : host) (slug : json) (cat : catalogue) : Prop :=
  (forall log author_name, exists body,
      endpoint h log (QuestionTopicsList slug author_name) = Body body /\
      listing_body (listing cat author_name) body) /\
  (forall log s, content_reply (content cat s) (endpoint h log (DiscussTopic (JStr s)))).

(** ** The solution fetcher as the specification words it

    Authors in allow-list order; within an author's listing, articles in the
    order returned; an article is accepted on its real name or its handle;
    the first accepted article with non-empty content wins. Each function
    also gives the requests this takes. *)

Definition accepted (author : string * string) (a : article) : bool :=
  String.eqb (realName a) (fst author) || String.eqb (userSlug a) (snd author).

Definition usable (cat : catalogue) (a : article) : option string :=
  match content cat (articleSlug a) with
  | Some t => if String.eqb t EmptyString then None else Some t
  | None => None
  end.

Fixpoint spec_scan_listing (cat : catalogue) (author : string * string)
    (arts : list article) : option string * list request :=
  match arts with
  | [] => (None, [])
  | a :: rest =>
      if accepted author a then
        match usable cat a with
        | Some t => (Some t, [DiscussTopic (JStr (articleSlug a))])
        | None =>
            let (r, reqs) := spec_scan_listing cat author rest in
            (r, DiscussTopic (JStr (articleSlug a)) :: reqs)
        end
      else spec_scan_listing cat author rest
  end.

Fixpoint spec_try_authors (slug : json) (cat : catalogue)
    (authors : list (string * string)) : string * list request :=
  match authors with
  | [] => (ARTICLE_ERROR, [])
  | author :: rest =>
      let (r, reqs) := spec_scan_listing cat author (listing cat (fst author)) in
      match r with
      | Some t => (t, QuestionTopicsList slug (fst author) :: reqs)
      | None =>
          let (t, reqs') := spec_try_authors slug cat rest in
          (t, QuestionTopicsList slug (fst author) :: reqs ++ reqs')
      end
  end.

(** No article of the listing is both accepted and non-empty. *)
Definition barren (cat : catalogue) (author : string * string)
    (arts : list article) : Prop :=
  Forall (fun a => accepted author a = true -> usable cat a = None) arts.

(** ** Encoders and concrete hosts for the examples *)

Definition question_json (q : question) : json :=
  JObj [("titleSlug", JStr (titleSlug q));
        ("questionFrontendId", JStr (questionFrontendId q))].

Definition page_json (p : page) : json :=
  JObj [("data", JObj [("problemsetQuestionListV2",
      JObj [("questions", JArr (map question_json (questions p)));
            ("hasMore", JBool (hasMore p))])])].

Definition article_json (a : article) : json :=
  JObj [("node", JObj [
    ("slug", JStr (articleSlug a));
    ("author", JObj [("profile",
       JObj [("userSlug", JStr (userSlug a)); ("realName", JStr (realName a))])])])].

Definition listing_json (arts : list article) : json :=
  JObj [("data", JObj [("questionSolutionArticles",
      JObj [("edges", JArr (map article_json arts))])])].

Definition content_json (t : string) : json :=
  JObj [("data", JObj [("solutionArticle", JObj [("content", JStr t)])])].

Definition posix_host (language : string)
    (server : list request -> request -> reply) (files : string -> file) : host :=
  Host language server Posix.parent Posix.name Posix.join files.

Definition no_files : string -> file := fun _ => Absent.

(** The end-to-end scenario: one page, [hasMore = false], one question. *)
Definition mock_page : page := Page [Question "42" "answer-slug"] false.

Definition mock_host : host :=
  posix_host "zh-CN"
    (fun _ req =>
       match req with
       | ProblemsetQuestionListV2 _ _ _ => Body (page_json mock_page)
       | _ => Fails
       end)
    no_files.

(** An endpoint that always announces a further, empty page. *)
Definition endless_host : host :=
  posix_host "zh-CN" (fun _ _ => Body (page_json (Page [] true))) no_files.

(** An endpoint that is down. *)
Definition offline_host : host :=
  posix_host "zh-CN" (fun _ _ => Fails) no_files.

(** A question whose translation is [null]. *)
Definition untranslated_host : host :=
  posix_host "zh-CN"
    (fun _ _ => Body (JObj [("data", JObj [("question",
        JObj [("translatedTitle", JNull); ("translatedContent", JNull)])])]))
    no_files.

(** Problem 1 resolves to [two-sum]; every other lookup finds nothing. *)
Definition two_sum_host (files : string -> file) : host :=
  posix_host "zh-CN"
    (fun _ req =>
       match req with
       | ProblemsetQuestionListV2 keyword _ _ =>
           if String.eqb keyword "1"
           then Body (page_json (Page [Question "1" "two-sum"] false))
           else Body (page_json (Page [] false))
       | QuestionTranslations slug =>
           if String.eqb slug "two-sum"
           then Body (JObj [("data", JObj [("question",
                  JObj [("translatedContent", JStr "<p>two sum</p>")])])])
           else Fails
       | _ => Fails
       end)
    files.

(** Articles of problem 1: the first author's only article is empty, the
    second author's listing has a foreign article before the wanted one. *)
Definition demo_catalogue : catalogue :=
  Catalogue
    (fun author_name =>
       if String.eqb author_name "宫水三叶"
       then [Article "宫水三叶" "ac_oier" "b0"]
       else if String.eqb author_name "灵茶山艾府"
       then [Article "somebody" "else" "a0";
             Article "renamed" "endlesscheng" "a1";
             Article "灵茶山艾府" "endlesscheng" "a2"]
       else [])
    (fun s =>
       if String.eqb s "b0" then Some EmptyString
       else if String.eqb s "a1" then Some "# solution"
       else if String.eqb s "a2" then Some "# another"
       else None).

Definition demo_host : host :=
  posix_host "zh-CN"
    (fun _ req =>
       match req with
       | ProblemsetQuestionListV2 _ _ _ =>
           Body (page_json (Page [Question "1" "two-sum"] false))
       | QuestionTopicsList _ author_name =>
           Body (listing_json (listing demo_catalogue author_name))
       | DiscussTopic (JStr s) =>
           match content demo_catalogue s with
           | Some t => Body (content_json t)
           | None => Fails
           end
       | _ => Fails
       end)
    no_files.

(** A checkout with the Chinese description of problem 1 next to its
    solution file. *)
Definition cached_files : string -> file :=
  fun p =>
    if String.eqb p "problems/problems_1/problem_zh.md" then Text "# 1. Two Sum"
    else Absent.

(** A checkout whose description file cannot be read as text (a file in
    another encoding than the locale's, say). *)
Definition undecodable_files : string -> file :=
  fun p =>
    if String.eqb p "problems/problems_1/problem_zh.md" then Unreadable
    else Absent.

(** A call that no amount of fuel brings to an end. *)
Definition diverges (call : nat -> outcome * list request) : Prop :=
  forall fuel, fst (call fuel) = OutOfFuel.

Definition is_content_query (req : request) : bool :=
  match req with
  | QuestionTranslations _ | QuestionContent _ => true
  | _ => false
  end.

Definition is_listing_query (req : request) : bool :=
  match req with
  | QuestionTopicsList _ _ => true
  | _ => false
  end.

Definition is_page_query (req : request) : bool :=
  match req with
  | ProblemsetQuestionListV2 _ _ _ => true
  | _ => false
  end.

(** ** Vocabulary of the further properties *)

(** [s] with every underscore turned into a space. *)
Fixpoint underscores_as_spaces (s : string) : string :=
  match s with
  | EmptyString => EmptyString
  | String c s' =>
      String (if Ascii.eqb c "_" then " "%char else c) (underscores_as_spaces s')
  end.

(** No character of [a] occurs in [b]. *)
Fixpoint no_common_char (a b : string) : bool :=
  match a with
  | EmptyString => true
  | String c a' => negb (PyStr.has_char c b) && no_common_char a' b
  end.

(** The question list of [body] holds an item whose [questionFrontendId] is
    the string [frontend_problem_id] and whose [titleSlug] is [slug]. *)
Definition offers (body : json) (frontend_problem_id : string) (slug : json)
    : Prop :=
  exists data res_dict qs items item,
    Py.getitem body "data" = Some data /\
    Py.getitem data "problemsetQuestionListV2" = Some res_dict /\
    Py.getitem res_dict "questions" = Some qs /\
    Py.iter qs = Some items /\
    In item items /\
    Py.getitem item "questionFrontendId" = Some (JStr frontend_problem_id) /\
    Py.getitem item "titleSlug" = Some slug.

(** The reply carries [text] as the [content] of [data.solutionArticle]. *)
Definition carries_content (r : reply) (text : json) : Prop :=
  exists body data fields,
    r = Body body /\
    Py.getitem body "data" = Some data /\
    Py.getitem data "solutionArticle" = Some (JObj fields) /\
    Py.assoc "content" fields = Some text.

(** A listing reply that gives the author loop nothing to scan. *)
Definition no_articles (r : reply) : Prop :=
  r = Fails \/
  exists body, r = Body body /\
    (read_edges body = None \/ read_edges body = Some []).

Definition is_article_query (req : request) : bool :=
  match req with
  | DiscussTopic _ => true
  | _ => false
  end.

(** ** The requests and failures as the specification words them

    Written from the specification, not from the code: pages of 100 from
    offset 0, one page further each turn; the content query of the
    configured language; what makes a page or a description unreadable. *)

Definition page_query (frontend_problem_id : string) (k : nat) : request :=
  ProblemsetQuestionListV2 frontend_problem_id (Z.of_nat k * 100) 100.

Definition page_queries (frontend_problem_id : string) (n : nat)
    : list request :=
  map (page_query frontend_problem_id) (seq 0 n).

(** The reply to the query for page [k] when pages [0] to [k - 1] were
    asked for just before, starting from the log [l0]. *)
Definition reply_to_page (h : host) (frontend_problem_id : string)
    (l0 : list request) (k : nat) : reply :=
  endpoint h (l0 ++ page_queries frontend_problem_id k)
           (page_query frontend_problem_id k).

(** The item has a [questionFrontendId], and it is not the string looked
    for. *)
Definition unmatched (frontend_problem_id : string) (item : json) : Prop :=
  exists fid,
    Py.getitem item "questionFrontendId" = Some fid /\
    Py.eq_str fid frontend_problem_id = false.

(** [items] is what iterating [data.problemsetQuestionListV2.questions] of
    [body] yields, and [res_dict] the object holding it. *)
Definition lists (body res_dict : json) (items : list json) : Prop :=
  exists data qs,
    Py.getitem body "data" = Some data /\
    Py.getitem data "problemsetQuestionListV2" = Some res_dict /\
    Py.getitem res_dict "questions" = Some qs /\
    Py.iter qs = Some items.

(** A page fetch that ends in an exception: the request fails; or the body
    has no question list to iterate; or an item reached before any match has
    no [questionFrontendId]; or the first match has no [titleSlug]; or there
    is no match and no [hasMore]. *)
Definition page_fetch_fails (frontend_problem_id : string) (r : reply) : Prop :=
  r = Fails \/
  exists body, r = Body body /\
    ((forall res_dict items, ~ lists body res_dict items) \/
     exists res_dict items, lists body res_dict items /\
       ((exists before item after,
           items = before ++ item :: after /\
           Forall (unmatched frontend_problem_id) before /\
           Py.getitem item "questionFrontendId" = None) \/
        (exists before item after,
           items = before ++ item :: after /\
           Forall (unmatched frontend_problem_id) before /\
           Py.getitem item "questionFrontendId"
           = Some (JStr frontend_problem_id) /\
           Py.getitem item "titleSlug" = None) \/
        (Forall (unmatched frontend_problem_id) items /\
         Py.getitem res_dict "hasMore" = None))).

Definition content_query (language slug : string) : request :=
  if String.eqb language "zh-CN" then QuestionTranslations slug
  else QuestionContent slug.

Definition content_key (language : string) : string :=
  if String.eqb language "zh-CN" then "translatedContent" else "content".

(** [v] is what [body] holds at [data.question.<key>]: [data] and
    [question] are objects and each holds the next key. *)
Definition leaf_at (body : json) (key : string) (v : json) : Prop :=
  exists data question,
    Py.getitem body "data" = Some data /\
    Py.getitem data "question" = Some question /\
    Py.getitem question key = Some v.

(** A slug lookup that ends whatever the budget beyond [N], with the same
    value and the same requests: at most [N + 1] pages, in order; the value
    is the sentinel or a [titleSlug] the endpoint listed for the
    identifier. *)
Definition lookup_settles (h : host) (N : nat) (frontend_problem_id : string)
    (run : nat -> list request -> outcome * list request) : Prop :=
  forall log, exists v k,
    (k <= S N)%nat /\
    (v = JStr "No slug found" \/
     exists j body,
       reply_to_page h frontend_problem_id log j = Body body /\
       offers body frontend_problem_id v) /\
    forall fuel, (N < fuel)%nat ->
      run fuel log = (Return v, log ++ page_queries frontend_problem_id k).

(** A solution search that ends whatever the budget beyond [N], with the
    same value and the same requests: at most [N + 1] pages, then listing
    and article queries; the value is a sentinel or truthy content that an
    article reply carried. *)
Definition solution_settles (h : host) (N : nat) (problem_id : string)
    (run : nat -> list request -> outcome * list request) : Prop :=
  forall log, exists v k extra,
    (k <= S N)%nat /\
    Forall (fun req => is_listing_query req || is_article_query req = true)
           extra /\
    (v = JStr "No solution article found" \/
     v = JStr "Error fetching solution article" \/
     (Py.truthy v = true /\
      exists log' article_slug,
        carries_content (endpoint h log' (DiscussTopic article_slug)) v)) /\
    forall fuel, (N < fuel)%nat ->
      run fuel log
      = (Return v, log ++ page_queries problem_id k ++ extra).

(** [P] holds of every budget beyond [N]. *)
Definition forall_budgets_beyond (N : nat) (P : nat -> Prop) : Prop :=
  forall fuel, (N < fuel)%nat -> P fuel.

(** Two pages: the first holds problem 6 and announces a further page, the
    second holds problem 7 and is the last. Nothing is served past them. *)
Definition two_page_host : host :=
  posix_host "zh-CN"
    (fun _ req =>
       match req with
       | ProblemsetQuestionListV2 _ skip _ =>
           if skip =? 0
           then Body (page_json (Page [Question "6" "six"] true))
           else if skip =? 100
           then Body (page_json (Page [Question "7" "seven"] false))
           else Fails
       | _ => Fails
       end)
    no_files.

(** An endpoint that knows no question: [data.question] is [null]. *)
Definition unknown_question_host : host :=
  posix_host "zh-CN"
    (fun _ _ => Body (JObj [("data", JObj [("question", JNull)])]))
    no_files.

(** * Theorems *)

Example folder_name_interview :
  _folder_name_to_problem_id "problems_Interview_17__01" = "面试题 17.01".
Proof. reflexivity. Qed.

Example folder_name_jz_offer :
  _folder_name_to_problem_id "problems_JZ_Offer_3" = "JZ Offer 3".
Proof. reflexivity. Qed.

Example folder_name_three_underscores :
  _folder_name_to_problem_id "a___b" = ".b".
Proof. reflexivity. Qed.

(** ** The identifier normaliser *)

Section NormaliserFacts.

Import PyStr.

Lemma has_char_app c (a b : string) :
  has_char c (a ++ b)%string = has_char c a || has_char c b.
Proof.
  induction a as [|d a IH]; simpl; [reflexivity|].
  now rewrite IH, orb_assoc.
Qed.

Lemma prefix_has_char c sub : forall s,
  has_char c sub = true -> prefix sub s = true -> has_char c s = true.
Proof.
  induction sub as [|a sub IH]; simpl; intros s Hc Hp; [discriminate|].
  destruct s as [|b s]; simpl in Hp; [discriminate|].
  destruct (ascii_dec a b) as [->|]; [|discriminate].
  simpl. apply orb_true_iff in Hc as [Hc|Hc].
  - now rewrite Hc.
  - rewrite (IH s Hc Hp). apply orb_true_r.
Qed.

Lemma contains_has_char c sub : forall s,
  has_char c sub = true -> contains sub s = true -> has_char c s = true.
Proof.
  induction s as [|b s IH]; cbn [contains]; intros Hc H.
  - rewrite orb_false_r in H. exact (prefix_has_char c sub _ Hc H).
  - apply orb_true_iff in H as [H|H].
    + exact (prefix_has_char c sub _ Hc H).
    + cbn [has_char]. rewrite (IH Hc H). apply orb_true_r.
Qed.

Lemma no_char_no_contains c sub s :
  has_char c sub = true -> has_char c s = false -> contains sub s = false.
Proof.
  intros Hc Hs. destruct (contains sub s) eqn:E; [|reflexivity].
  rewrite (contains_has_char c sub s Hc E) in Hs. discriminate.
Qed.

Lemma prefix_single c e s :
  prefix (String c EmptyString) (String e s) = Ascii.eqb e c.
Proof.
  simpl. destruct (ascii_dec c e) as [->|Hne].
  - rewrite Ascii.eqb_refl. now destruct s.
  - destruct (Ascii.eqb e c) eqn:E; [|reflexivity].
    apply Ascii.eqb_eq in E. congruence.
Qed.

Lemma contains_char_has_char c : forall s,
  contains (String c EmptyString) s = has_char c s.
Proof.
  induction s as [|d s IH]; [reflexivity|].
  cbn [contains has_char]. now rewrite prefix_single, IH.
Qed.

Lemma contains_false_find sub : forall s,
  contains sub s = false -> find sub s = -1.
Proof.
  induction s as [|d s IH]; cbn [contains find]; intros H.
  - rewrite orb_false_r in H. now rewrite H.
  - apply orb_false_iff in H as [Hp Hc].
    rewrite Hp, (IH Hc). reflexivity.
Qed.

Lemma replace_char_removes c d : forall s,
  Ascii.eqb d c = false ->
  has_char c (replace (String c EmptyString) (String d EmptyString) s) = false.
Proof.
  unfold replace. intros s Hd.
  induction s as [|e s IH]; [reflexivity|].
  cbn [replace_from]. rewrite prefix_single.
  destruct (Ascii.eqb e c) eqn:E; cbn; now rewrite ?Hd, ?E, IH.
Qed.

Lemma replace_from_keeps_absent c old new : forall s skip,
  has_char c new = false -> has_char c s = false ->
  has_char c (replace_from skip old new s) = false.
Proof.
  induction s as [|e s IH]; intros skip Hn Hs; [reflexivity|].
  simpl in Hs. apply orb_false_iff in Hs as [He Hs].
  cbn [replace_from]. destruct skip as [|k]; [|now apply IH].
  destruct (prefix old (String e s)).
  - rewrite has_char_app, Hn. now apply IH.
  - simpl. rewrite He. now apply IH.
Qed.

Lemma underscore_to_space_clean s :
  has_char "_" (underscore_to_space s) = false.
Proof.
  unfold underscore_to_space.
  destruct (contains "_" s) eqn:E.
  - now apply replace_char_removes.
  - now rewrite <- contains_char_has_char.
Qed.

Lemma jz_offer_idle s : has_char "_" s = false -> jz_offer s = s.
Proof.
  intros H. unfold jz_offer.
  now rewrite (no_char_no_contains "_" "JZ_Offer" s eq_refl H).
Qed.

Lemma interview_clean s :
  has_char "_" s = false -> has_char "_" (interview s) = false.
Proof.
  intros H. unfold interview.
  destruct (contains "Interview" s); [|exact H].
  now apply replace_from_keeps_absent.
Qed.

Lemma strip_prefix_without_underscore s :
  contains "_" s = false -> strip_prefix s = s.
Proof.
  intros H. unfold strip_prefix. rewrite (contains_false_find _ _ H).
  reflexivity.
Qed.

End NormaliserFacts.

(** C10. [_folder_name_to_problem_id("1_Two_Sum")] is ["Two Sum"], and
    [_folder_name_to_problem_id("面试题_17__01")] is ["17.01"]: the prefix up
    to the first underscore goes, the double underscore becomes a point
    before single underscores become spaces. *)
Theorem folder_name_examples :
  _folder_name_to_problem_id "1_Two_Sum" = "Two Sum" /\
  _folder_name_to_problem_id "面试题_17__01" = "17.01" /\
  dunder_to_dot (strip_prefix "面试题_17__01") = "17.01" /\
  underscore_to_space (strip_prefix "面试题_17__01") = "17  01".
Proof. repeat split; reflexivity. Qed.

(** C9. For every input the value [_folder_name_to_problem_id] returns has no
    underscore, and the [JZ_Offer] step never changes the string: what
    reaches it, the output of the underscore-to-space step, has no
    underscore, so it cannot contain [JZ_Offer]. *)
Theorem folder_name_result_has_no_underscore : forall folder_name : string,
  PyStr.has_char "_" (_folder_name_to_problem_id folder_name) = false /\
  PyStr.contains "_" (_folder_name_to_problem_id folder_name) = false /\
  PyStr.has_char "_"
    (underscore_to_space (dunder_to_dot (strip_prefix folder_name))) = false /\
  PyStr.contains "JZ_Offer"
    (underscore_to_space (dunder_to_dot (strip_prefix folder_name))) = false /\
  jz_offer (underscore_to_space (dunder_to_dot (strip_prefix folder_name)))
  = underscore_to_space (dunder_to_dot (strip_prefix folder_name)).
Proof.
  intros folder_name.
  pose proof (underscore_to_space_clean (dunder_to_dot (strip_prefix folder_name)))
    as Hclean.
  assert (PyStr.has_char "_" (_folder_name_to_problem_id folder_name) = false)
    as Hout.
  { unfold _folder_name_to_problem_id. rewrite (jz_offer_idle _ Hclean).
    now apply interview_clean. }
  split; [exact Hout|]. split.
  { now rewrite (contains_char_has_char "_"). }
  split; [exact Hclean|]. split.
  - exact (no_char_no_contains "_" "JZ_Offer" _ eq_refl Hclean).
  - exact (jz_offer_idle _ Hclean).
Qed.

(** C8. [_folder_name_to_problem_id] is a function of the folder name alone,
    and on a folder name with no [_], [__], [JZ_Offer] or [Interview] in it
    applying it twice gives what applying it once gives (it returns such a
    name unchanged). *)
Theorem folder_name_idempotent_on_normalized : forall folder_name : string,
  PyStr.contains "_" folder_name = false ->
  PyStr.contains "__" folder_name = false ->
  PyStr.contains "JZ_Offer" folder_name = false ->
  PyStr.contains "Interview" folder_name = false ->
  _folder_name_to_problem_id (_folder_name_to_problem_id folder_name)
  = _folder_name_to_problem_id folder_name /\
  _folder_name_to_problem_id folder_name = folder_name.
Proof.
  intros s H1 H2 H3 H4.
  assert (_folder_name_to_problem_id s = s) as Hid.
  { unfold _folder_name_to_problem_id.
    rewrite (strip_prefix_without_underscore s H1).
    unfold dunder_to_dot. rewrite H2.
    unfold underscore_to_space. rewrite H1.
    unfold jz_offer. rewrite H3.
    unfold interview. now rewrite H4. }
  split; [now rewrite !Hid | exact Hid].
Qed.

Lemma folder_name_idempotent_witness :
  _folder_name_to_problem_id (_folder_name_to_problem_id "LCR 001")
  = _folder_name_to_problem_id "LCR 001" /\
  _folder_name_to_problem_id "LCR 001" = "LCR 001".
Proof.
  apply (folder_name_idempotent_on_normalized "LCR 001"); reflexivity.
Defined.

(** ** The slug resolver *)

Section SlugResolverFacts.

Variable h : host.
Variable pid : string.

Lemma scan_questions_no_match qs : forall items,
  Forall2 question_item qs items -> no_match pid qs ->
  scan_questions pid items = Some None.
Proof.
  induction qs as [|q qs IH]; intros items HF Hno; inversion HF; subst.
  - reflexivity.
  - inversion Hno as [|? ? Hq Hrest]; subst.
    match goal with H : question_item q _ |- _ => destruct H as [Hfid _] end.
    cbn [scan_questions]. rewrite Hfid. cbn.
    apply String.eqb_neq in Hq. rewrite Hq. now apply IH.
Qed.

Lemma scan_questions_hit before q after : forall items,
  Forall2 question_item (before ++ q :: after) items ->
  no_match pid before -> questionFrontendId q = pid ->
  scan_questions pid items = Some (Some (JStr (titleSlug q))).
Proof.
  induction before as [|b before IH]; intros items HF Hno Hq;
    inversion HF; subst.
  - match goal with H : question_item q _ |- _ => destruct H as [Hfid Hslug] end.
    cbn [scan_questions]. rewrite Hfid. cbn.
    rewrite String.eqb_refl, Hslug. reflexivity.
  - inversion Hno as [|? ? Hb Hrest]; subst.
    match goal with H : question_item b _ |- _ => destruct H as [Hfid _] end.
    cbn [scan_questions]. rewrite Hfid. cbn.
    apply String.eqb_neq in Hb. rewrite Hb. now apply IH.
Qed.

Lemma read_page_no_match p body :
  page_body p body -> no_match pid (questions p) ->
  read_page pid body = Some (if hasMore p then More else Last).
Proof.
  intros (data & res & items & Hd & Hr & Hq & HF & Hm) Hno.
  unfold read_page. rewrite Hd. cbn. rewrite Hr. cbn. rewrite Hq. cbn.
  rewrite (scan_questions_no_match _ _ HF Hno). cbn. now rewrite Hm.
Qed.

Lemma read_page_hit p body before q after :
  page_body p body -> questions p = before ++ q :: after ->
  no_match pid before -> questionFrontendId q = pid ->
  read_page pid body = Some (Found (JStr (titleSlug q))).
Proof.
  intros (data & res & items & Hd & Hr & Hq & HF & Hm) Hsplit Hno Hfid.
  unfold read_page. rewrite Hd. cbn. rewrite Hr. cbn. rewrite Hq. cbn.
  rewrite Hsplit in HF.
  now rewrite (scan_questions_hit _ _ _ _ HF Hno Hfid).
Qed.

Lemma read_page_more body :
  read_page pid body = Some More -> reports_more (Body body).
Proof.
  unfold read_page, Py.bind. intros H.
  destruct (Py.getitem body "data") as [data|] eqn:Hd; [|discriminate].
  destruct (Py.getitem data "problemsetQuestionListV2") as [res|] eqn:Hr;
    [|discriminate].
  destruct (Py.getitem res "questions") as [qs|]; [|discriminate].
  destruct (Py.iter qs) as [items|]; [|discriminate].
  destruct (scan_questions pid items) as [[slug|]|]; try discriminate.
  destruct (Py.getitem res "hasMore") as [hm|] eqn:Hm; [|discriminate].
  destruct (Py.truthy hm) eqn:Ht; [|discriminate].
  now exists body, data, res, hm.
Qed.

Lemma requests_from_snoc start n :
  requests_from pid start (S n)
  = requests_from pid start n ++ [page_request pid (start + n)].
Proof. unfold requests_from. now rewrite seq_S, map_app. Qed.

Lemma requests_from_cons start n :
  requests_from pid start (S n)
  = page_request pid start :: requests_from pid (S start) n.
Proof. reflexivity. Qed.

(** Pages that announce a further page and hold no match are passed over,
    one request each. *)
Lemma find_slug_from_turns : forall n start fuel l0,
  (forall k, (k < n)%nat ->
     turns_page pid (endpoint h (l0 ++ requests_from pid start k)
                              (page_request pid (start + k)))) ->
  find_slug_from h (n + fuel) pid start l0
  = find_slug_from h fuel pid (start + n) (l0 ++ requests_from pid start n).
Proof.
  induction n as [|n IH]; intros start fuel l0 Hturn.
  - cbn. now rewrite Nat.add_0_r, app_nil_r.
  - destruct (Hturn 0%nat ltac:(lia)) as (body & p & Hr & Hb & Hno & Hm).
    cbn [requests_from seq map] in Hr. rewrite app_nil_r, Nat.add_0_r in Hr.
    cbn [Nat.add find_slug_from post]. rewrite Hr.
    rewrite (read_page_no_match _ _ Hb Hno), Hm.
    rewrite IH.
    + rewrite requests_from_cons, <- app_assoc, Nat.add_succ_r. reflexivity.
    + intros k Hk. specialize (Hturn (S k) ltac:(lia)).
      rewrite requests_from_cons, Nat.add_succ_r in Hturn.
      now rewrite <- app_assoc.
Qed.

(** What the lookup does once the first [n] pages are passed. *)
Lemma find_slug_after_turns n fuel l0 :
  (n < fuel)%nat ->
  (forall k, (k < n)%nat -> turns_page pid (served h pid l0 k)) ->
  find_leetcode_question_slug_by_problem_id h fuel pid l0
  = let log := l0 ++ page_requests pid (S n) in
    match served h pid l0 n with
    | Fails => (Return (JStr NO_SLUG), log)
    | Body body =>
        match read_page pid body with
        | None => (Return (JStr NO_SLUG), log)
        | Some (Found slug) => (Return slug, log)
        | Some Last => (Return (JStr NO_SLUG), log)
        | Some More =>
            find_slug_from h (fuel - S n) pid (S n) log
        end
    end.
Proof.
  intros Hlt Hturn.
  unfold find_leetcode_question_slug_by_problem_id.
  replace fuel with (n + S (fuel - S n))%nat at 1 by lia.
  rewrite find_slug_from_turns by exact Hturn.
  cbn [find_slug_from post Nat.add]. unfold served, page_requests.
  fold (requests_from pid 0 n). fold (requests_from pid 0 (S n)).
  rewrite (requests_from_snoc 0 n), app_assoc. cbn [Nat.add].
  destruct (endpoint h (l0 ++ requests_from pid 0 n) (page_request pid n))
    as [|body]; [reflexivity|].
  destruct (read_page pid body) as [[slug| |]|]; reflexivity.
Qed.

End SlugResolverFacts.

Lemma page_queries_are_requests (pid : string) (n : nat) :
  page_queries pid n = page_requests pid n.
Proof. reflexivity. Qed.

Lemma reply_to_page_is_served (h : host) (pid : string) (l0 : list request)
    (k : nat) :
  reply_to_page h pid l0 k = served h pid l0 k.
Proof. reflexivity. Qed.

Lemma scan_questions_skips_unmatched (pid : string) (rest : list json) :
  forall before,
    Forall (unmatched pid) before ->
    scan_questions pid (before ++ rest) = scan_questions pid rest.
Proof.
  induction 1 as [|item before (fid & Hfid & Hne) _ IH]; [reflexivity|].
  cbn [app scan_questions]. rewrite Hfid. cbn [Py.bind]. now rewrite Hne.
Qed.

Lemma page_fetch_fails_raises (pid : string) (r : reply) :
  page_fetch_fails pid r -> fetch_raises pid r.
Proof.
  intros [Hf | (body & Hr & Hcase)]; [now left|].
  right. exists body. split; [exact Hr|].
  unfold read_page, Py.bind.
  destruct Hcase as [Hnone | (res & items & Hl & Hcase)].
  - destruct (Py.getitem body "data") as [data|] eqn:Hd; [|reflexivity].
    destruct (Py.getitem data "problemsetQuestionListV2") as [res|] eqn:Hres;
      [|reflexivity].
    destruct (Py.getitem res "questions") as [qs|] eqn:Hq; [|reflexivity].
    destruct (Py.iter qs) as [items|] eqn:Hi; [|reflexivity].
    exfalso. apply (Hnone res items). now exists data, qs.
  - destruct Hl as (data & qs & Hd & Hres & Hq & Hi).
    rewrite Hd, Hres, Hq, Hi.
    destruct Hcase as [(before & item & after & -> & Hb & Hfid)
                      | [(before & item & after & -> & Hb & Hfid & Hslug)
                      | (Hall & Hm)]].
    + rewrite (scan_questions_skips_unmatched pid _ before Hb).
      cbn [scan_questions]. now rewrite Hfid.
    + rewrite (scan_questions_skips_unmatched pid _ before Hb).
      cbn [scan_questions]. rewrite Hfid. cbn [Py.bind Py.eq_str].
      now rewrite String.eqb_refl, Hslug.
    + rewrite <- (app_nil_r items).
      rewrite (scan_questions_skips_unmatched pid [] items Hall).
      cbn [scan_questions]. now rewrite Hm.
Qed.

(** C1. The slug resolver reads the pages in order: page [k] is asked for
    with [skip = 100 * k] and [limit = 100], after pages [0] to [k - 1].
    Once [n] pages without a match that each announced a further page are
    behind it: (1) a page [n] holding a question whose [questionFrontendId]
    equals the input makes it return the [titleSlug] of the first such
    question; (2) a page [n] without a match and with [hasMore = false]
    makes it return exactly ["No slug found"]; (3) an exception while page
    [n] is fetched or read (a failed request, no question list, an item
    without identifier, a match without slug, no [hasMore]) makes it return
    ["No slug found"], as a value. In each case the requests made are
    exactly those of pages [0] to [n]: none follows. *)
Theorem find_slug_by_problem_id_pages :
  forall (h : host) (frontend_problem_id : string) (l0 : list request)
         (n fuel : nat),
  (n < fuel)%nat ->
  (forall k, (k < n)%nat ->
     turns_page frontend_problem_id
       (endpoint h
          (l0 ++ map (fun i => ProblemsetQuestionListV2 frontend_problem_id
                                 (Z.of_nat i * 100) 100) (seq 0 k))
          (ProblemsetQuestionListV2 frontend_problem_id (Z.of_nat k * 100) 100))) ->
  (forall body p before q after,
     reply_to_page h frontend_problem_id l0 n = Body body ->
     page_body p body ->
     questions p = before ++ q :: after ->
     no_match frontend_problem_id before ->
     questionFrontendId q = frontend_problem_id ->
     find_leetcode_question_slug_by_problem_id h fuel frontend_problem_id l0
     = (Return (JStr (titleSlug q)),
        l0 ++ map (fun i => ProblemsetQuestionListV2 frontend_problem_id
                              (Z.of_nat i * 100) 100) (seq 0 (S n)))) /\
  (forall body p,
     reply_to_page h frontend_problem_id l0 n = Body body ->
     page_body p body ->
     no_match frontend_problem_id (questions p) ->
     hasMore p = false ->
     find_leetcode_question_slug_by_problem_id h fuel frontend_problem_id l0
     = (Return (JStr "No slug found"),
        l0 ++ map (fun i => ProblemsetQuestionListV2 frontend_problem_id
                              (Z.of_nat i * 100) 100) (seq 0 (S n)))) /\
  (page_fetch_fails frontend_problem_id
     (reply_to_page h frontend_problem_id l0 n) ->
     find_leetcode_question_slug_by_problem_id h fuel frontend_problem_id l0
     = (Return (JStr "No slug found"),
        l0 ++ map (fun i => ProblemsetQuestionListV2 frontend_problem_id
                              (Z.of_nat i * 100) 100) (seq 0 (S n)))).
Proof.
  intros h pid l0 n fuel Hlt Hturn.
  fold (page_query pid) in *. fold (page_queries pid (S n)).
  assert (forall k, (k < n)%nat -> turns_page pid (served h pid l0 k)) as Hturn'.
  { intros k Hk. rewrite <- reply_to_page_is_served. exact (Hturn k Hk). }
  pose proof (find_slug_after_turns h pid n fuel l0 Hlt Hturn') as Hrun.
  cbv zeta in Hrun.
  rewrite <- reply_to_page_is_served, <- page_queries_are_requests in Hrun.
  repeat split.
  - intros body p before q after Hs Hb Hsplit Hno Hq.
    rewrite Hrun, Hs.
    now rewrite (read_page_hit pid p body before q after Hb Hsplit Hno Hq).
  - intros body p Hs Hb Hno Hm.
    rewrite Hrun, Hs. now rewrite (read_page_no_match pid p body Hb Hno), Hm.
  - intros Hfail. apply page_fetch_fails_raises in Hfail.
    destruct Hfail as [Hf | (body & Hs & Hnone)]; rewrite Hrun.
    + now rewrite Hf.
    + now rewrite Hs, Hnone.
Qed.

(** By the theorem: a match on the second page, reached with [skip = 100];
    the end-to-end scenario of the specification (one page with
    [hasMore = false] and the question [42]); an endpoint that is down; a
    body without a question list. *)
Lemma find_slug_end_to_end :
  find_leetcode_question_slug_by_problem_id two_page_host 2 "7" []
  = (Return (JStr "seven"),
     [ProblemsetQuestionListV2 "7" 0 100; ProblemsetQuestionListV2 "7" 100 100]) /\
  find_leetcode_question_slug_by_problem_id mock_host 1 "42" []
  = (Return (JStr "answer-slug"), [ProblemsetQuestionListV2 "42" 0 100]) /\
  find_leetcode_question_slug_by_problem_id mock_host 1 "43" []
  = (Return (JStr "No slug found"), [ProblemsetQuestionListV2 "43" 0 100]) /\
  find_leetcode_question_slug_by_problem_id offline_host 1 "1" []
  = (Return (JStr "No slug found"), [ProblemsetQuestionListV2 "1" 0 100]) /\
  find_leetcode_question_slug_by_problem_id unknown_question_host 1 "1" []
  = (Return (JStr "No slug found"), [ProblemsetQuestionListV2 "1" 0 100]).
Proof.
  assert (forall p, page_body p (page_json p)) as Hbody.
  { intros p. do 3 eexists. repeat split; try reflexivity.
    induction (questions p); constructor; [now split | assumption]. }
  split; [|split; [|split; [|split]]].
  - destruct (find_slug_by_problem_id_pages two_page_host "7" [] 1 2)
      as [Hhit _].
    + lia.
    + intros k Hk. assert (k = 0)%nat as -> by lia.
      exists (page_json (Page [Question "6" "six"] true)),
             (Page [Question "6" "six"] true).
      repeat split; [apply Hbody|]. repeat constructor. discriminate.
    + apply (Hhit (page_json (Page [Question "7" "seven"] false))
                  (Page [Question "7" "seven"] false) []
                  (Question "7" "seven") []);
        [reflexivity | apply Hbody | reflexivity | constructor | reflexivity].
  - destruct (find_slug_by_problem_id_pages mock_host "42" [] 0 1) as [Hhit _].
    + lia.
    + intros k Hk. lia.
    + apply (Hhit (page_json mock_page) mock_page [] (Question "42" "answer-slug") []);
        [reflexivity | apply Hbody | reflexivity | constructor | reflexivity].
  - destruct (find_slug_by_problem_id_pages mock_host "43" [] 0 1)
      as (_ & Hlast & _).
    + lia.
    + intros k Hk. lia.
    + apply (Hlast (page_json mock_page) mock_page);
        [reflexivity | apply Hbody | | reflexivity].
      repeat constructor. discriminate.
  - destruct (find_slug_by_problem_id_pages offline_host "1" [] 0 1)
      as (_ & _ & Hfail).
    + lia.
    + intros k Hk. lia.
    + apply Hfail. left. reflexivity.
  - destruct (find_slug_by_problem_id_pages unknown_question_host "1" [] 0 1)
      as (_ & _ & Hfail).
    + lia.
    + intros k Hk. lia.
    + apply Hfail. right.
      exists (JObj [("data", JObj [("question", JNull)])]).
      split; [reflexivity|]. left.
      intros res_dict items (data & qs & Hd & Hres & _).
      cbn in Hd. injection Hd as <-. discriminate.
Defined.

(** The lookup issues page requests only, in page order. *)
Lemma find_slug_from_log (h : host) (pid : string) :
  forall fuel start log, exists k,
    snd (find_slug_from h fuel pid start log) = log ++ requests_from pid start k.
Proof.
  induction fuel as [|fuel IH]; intros start log.
  - exists 0%nat. cbn. now rewrite app_nil_r.
  - cbn [find_slug_from post].
    destruct (endpoint h log (page_request pid start)) as [|body];
      [exists 1%nat; reflexivity|].
    destruct (read_page pid body) as [[slug| |]|];
      try (exists 1%nat; reflexivity).
    destruct (IH (S start) (log ++ [page_request pid start])) as [k Hk].
    exists (S k). rewrite Hk, <- app_assoc. reflexivity.
Qed.

Lemma filter_page_requests (f : request -> bool) (pid : string) :
  (forall skip limit, f (ProblemsetQuestionListV2 pid skip limit) = false) ->
  forall start k, filter f (requests_from pid start k) = [].
Proof.
  intros Hf start k. revert start.
  induction k as [|k IH]; intros start; [reflexivity|].
  cbn. unfold page_request at 1. rewrite Hf. apply IH.
Qed.

(** ** The solution fetcher: no slug, no article request *)

(** C5. When the slug lookup gives ["No slug found"],
    [get_leetcode_question_solution_by_problem_id] returns exactly
    ["No solution article found"] and its requests are those of the lookup,
    all of them page requests: no article listing is asked for. *)
Theorem solution_without_slug_asks_no_author :
  forall (h : host) (fuel : nat) (problem_id : string) (l0 l1 : list request),
  find_leetcode_question_slug_by_problem_id h fuel problem_id l0
  = (Return (JStr "No slug found"), l1) ->
  get_leetcode_question_solution_by_problem_id h fuel problem_id l0
  = (Return (JStr "No solution article found"), l1) /\
  (exists k, l1 = l0 ++ page_requests problem_id k) /\
  filter is_listing_query l1 = filter is_listing_query l0.
Proof.
  intros h fuel pid l0 l1 Hfind.
  destruct (find_slug_from_log h pid fuel 0 l0) as [k Hk].
  unfold find_leetcode_question_slug_by_problem_id in Hfind.
  rewrite Hfind in Hk. cbn [snd] in Hk.
  split; [|split].
  - unfold get_leetcode_question_solution_by_problem_id,
      find_leetcode_question_slug_by_problem_id.
    now rewrite Hfind.
  - now exists k.
  - rewrite Hk, filter_app, filter_page_requests, app_nil_r; reflexivity.
Qed.

Lemma solution_without_slug_witness :
  get_leetcode_question_solution_by_problem_id mock_host 1 "43" []
  = (Return (JStr "No solution article found"),
     [ProblemsetQuestionListV2 "43" 0 100]) /\
  (exists k, [ProblemsetQuestionListV2 "43" 0 100] = [] ++ page_requests "43" k) /\
  filter is_listing_query [ProblemsetQuestionListV2 "43" 0 100]
  = filter is_listing_query [].
Proof.
  apply (solution_without_slug_asks_no_author mock_host 1 "43" []).
  reflexivity.
Defined.

(** ** The description fetcher *)



Lemma read_desc_leaf (h : host) (body v : json) :
  leaf_at body (content_key (LANGUAGE h)) v -> read_desc h body = Some v.
Proof.
  intros (data & question & Hd & Hq & Hk).
  unfold read_desc, Py.bind. rewrite Hd, Hq. exact Hk.
Qed.

Lemma read_desc_no_leaf (h : host) (body : json) :
  (forall v, ~ leaf_at body (content_key (LANGUAGE h)) v) ->
  read_desc h body = None.
Proof.
  intros Hnone. unfold read_desc, Py.bind.
  destruct (Py.getitem body "data") as [data|] eqn:Hd; [|reflexivity].
  destruct (Py.getitem data "question") as [question|] eqn:Hq; [|reflexivity].
  destruct (Py.getitem question (resp_key h)) as [v|] eqn:Hk; [|reflexivity].
  exfalso. apply (Hnone v). now exists data, question.
Qed.

(** C7, the claim as stated fails: a body whose
    [data.question.translatedContent] is [null], an unexpected null and so a
    shape failure, makes [get_leetcode_question_desc_by_problem_id] return
    [None], not ["No description found"]. *)
Lemma desc_by_problem_id_passes_null :
  get_leetcode_question_desc_by_problem_id untranslated_host "1" []
  = (Return JNull, [QuestionTranslations "1"]) /\
  Return JNull <> Return (JStr "No description found").
Proof. split; [reflexivity | discriminate]. Qed.

(** C7, amended. [get_leetcode_question_desc_by_problem_id] makes exactly one
    request, the content query of the configured language ([questionTranslations]
    under ["zh-CN"], [questionContent] otherwise) with the problem identifier
    itself as [titleSlug], so no slug is resolved; it never raises. When the
    request fails, or the body does not hold the key of that language at
    [data.question] ([data] or [question] missing, [null] or no object, or
    the key missing), it returns exactly ["No description found"]; when the
    key is there it returns its value as sent, a [null] included. *)
Theorem desc_by_problem_id_queries_content :
  forall (h : host) (problem_id : string) (log : list request),
  snd (get_leetcode_question_desc_by_problem_id h problem_id log)
  = log ++ [if String.eqb (LANGUAGE h) "zh-CN"
            then QuestionTranslations problem_id
            else QuestionContent problem_id] /\
  (exists v, fst (get_leetcode_question_desc_by_problem_id h problem_id log)
             = Return v) /\
  (endpoint h log (content_query (LANGUAGE h) problem_id) = Fails ->
   fst (get_leetcode_question_desc_by_problem_id h problem_id log)
   = Return (JStr "No description found")) /\
  (forall body,
     endpoint h log (content_query (LANGUAGE h) problem_id) = Body body ->
     (forall v,
        ~ leaf_at body
            (if String.eqb (LANGUAGE h) "zh-CN" then "translatedContent"
             else "content") v) ->
     fst (get_leetcode_question_desc_by_problem_id h problem_id log)
     = Return (JStr "No description found")) /\
  (forall body v,
     endpoint h log (content_query (LANGUAGE h) problem_id) = Body body ->
     leaf_at body
       (if String.eqb (LANGUAGE h) "zh-CN" then "translatedContent"
        else "content") v ->
     fst (get_leetcode_question_desc_by_problem_id h problem_id log)
     = Return v).
Proof.
  intros h pid log.
  fold (content_key (LANGUAGE h)).
  unfold get_leetcode_question_desc_by_problem_id,
    _get_leetcode_question_desc_by_slug, post.
  change (desc_request h pid) with (content_query (LANGUAGE h) pid).
  destruct (endpoint h log (content_query (LANGUAGE h) pid)) as [|body] eqn:Hr.
  - repeat split; try reflexivity; try discriminate. now eexists.
  - split; [now destruct (read_desc h body)|]. split.
    { destruct (read_desc h body); now eexists. }
    split; [discriminate|]. split.
    + intros body' Hb Hnone. injection Hb as <-.
      now rewrite (read_desc_no_leaf h body Hnone).
    + intros body' v Hb Hleaf. injection Hb as <-.
      now rewrite (read_desc_leaf h body v Hleaf).
Qed.

(** By the theorem: an unknown question ([data.question] is [null]) gives
    the sentinel; a known one gives its translated content. *)
Lemma desc_by_problem_id_witness :
  get_leetcode_question_desc_by_problem_id unknown_question_host "0" []
  = (Return (JStr "No description found"), [QuestionTranslations "0"]) /\
  get_leetcode_question_desc_by_problem_id (two_sum_host no_files) "two-sum" []
  = (Return (JStr "<p>two sum</p>"), [QuestionTranslations "two-sum"]).
Proof.
  split.
  - destruct (desc_by_problem_id_queries_content unknown_question_host "0" [])
      as (Hlog & _ & _ & Hshape & _).
    rewrite (surjective_pairing
               (get_leetcode_question_desc_by_problem_id
                  unknown_question_host "0" [])).
    rewrite Hlog.
    rewrite (Hshape (JObj [("data", JObj [("question", JNull)])]) eq_refl).
    + reflexivity.
    + intros v (data & question & Hd & Hq & Hk).
      cbn in Hd. injection Hd as <-.
      cbn in Hq. injection Hq as <-.
      discriminate.
  - destruct (desc_by_problem_id_queries_content (two_sum_host no_files)
                "two-sum" []) as (Hlog & _ & _ & _ & Hleaf).
    rewrite (surjective_pairing
               (get_leetcode_question_desc_by_problem_id
                  (two_sum_host no_files) "two-sum" [])).
    rewrite Hlog.
    rewrite (Hleaf (JObj [("data", JObj [("question",
               JObj [("translatedContent", JStr "<p>two sum</p>")])])])
               (JStr "<p>two sum</p>") eq_refl).
    + reflexivity.
    + do 2 eexists. repeat split; reflexivity.
Defined.

(** ** The solution fetcher against the specification's wording *)

Section SpecFacts.

Variable cat : catalogue.

Lemma spec_scan_listing_barren author arts :
  barren cat author arts -> fst (spec_scan_listing cat author arts) = None.
Proof.
  induction 1 as [|a arts Ha _ IH]; [reflexivity|].
  cbn [spec_scan_listing].
  destruct (accepted author a); [|exact IH].
  rewrite (Ha eq_refl).
  destruct (spec_scan_listing cat author arts). exact IH.
Qed.

Lemma spec_scan_listing_first author before a after t :
  barren cat author before ->
  accepted author a = true -> usable cat a = Some t ->
  fst (spec_scan_listing cat author (before ++ a :: after)) = Some t.
Proof.
  intros Hb Ha Ht.
  induction Hb as [|b before Hbar _ IH]; cbn [app spec_scan_listing].
  - now rewrite Ha, Ht.
  - destruct (accepted author b); [|exact IH].
    rewrite (Hbar eq_refl).
    destruct (spec_scan_listing cat author (before ++ a :: after)). exact IH.
Qed.

Lemma spec_scan_listing_requests author arts :
  filter is_listing_query (snd (spec_scan_listing cat author arts)) = [].
Proof.
  induction arts as [|a arts IH]; [reflexivity|].
  cbn [spec_scan_listing].
  destruct (accepted author a); [|exact IH].
  destruct (usable cat a); [reflexivity|].
  destruct (spec_scan_listing cat author arts). exact IH.
Qed.

Lemma spec_try_authors_exhausted slug authors :
  Forall (fun author => barren cat author (listing cat (fst author))) authors ->
  fst (spec_try_authors slug cat authors) = ARTICLE_ERROR.
Proof.
  induction 1 as [|author authors Ha _ IH]; [reflexivity|].
  cbn [spec_try_authors].
  pose proof (spec_scan_listing_barren _ _ Ha) as Hnone.
  destruct (spec_scan_listing cat author (listing cat (fst author))) as [r reqs].
  cbn [fst] in Hnone. subst r.
  destruct (spec_try_authors slug cat authors). exact IH.
Qed.

Lemma spec_try_authors_first slug tried author rest before a after t :
  Forall (fun x => barren cat x (listing cat (fst x))) tried ->
  listing cat (fst author) = before ++ a :: after ->
  barren cat author before ->
  accepted author a = true -> usable cat a = Some t ->
  fst (spec_try_authors slug cat (tried ++ author :: rest)) = t /\
  filter is_listing_query
    (snd (spec_try_authors slug cat (tried ++ author :: rest)))
  = map (fun x => QuestionTopicsList slug (fst x)) (tried ++ [author]).
Proof.
  intros Htried Hl Hb Ha Ht.
  induction Htried as [|x tried Hx _ IH]; cbn [app spec_try_authors map].
  - pose proof (spec_scan_listing_first author before a after t Hb Ha Ht) as H1.
    pose proof (spec_scan_listing_requests author (listing cat (fst author)))
      as H2.
    rewrite <- Hl in H1.
    destruct (spec_scan_listing cat author (listing cat (fst author)))
      as [r reqs].
    cbn [fst snd] in *. subst r. cbn. now rewrite H2.
  - pose proof (spec_scan_listing_barren _ _ Hx) as H1.
    pose proof (spec_scan_listing_requests x (listing cat (fst x))) as H2.
    destruct (spec_scan_listing cat x (listing cat (fst x))) as [r reqs].
    cbn [fst snd] in *. subst r.
    destruct (spec_try_authors slug cat (tried ++ author :: rest)) as [t' reqs'].
    cbn [fst snd] in *. destruct IH as [IH1 IH2].
    split; [exact IH1|].
    cbn. now rewrite filter_app, H2, IH2.
Qed.

End SpecFacts.

Section SolutionFacts.

Variable h : host.
Variable slug : json.
Variable cat : catalogue.
Hypothesis Hserves : serves h slug cat.

Lemma get_article_served s log :
  _get_leetcode_article h (JStr s) log
  = (match content cat s with Some t => JStr t | None => JNull end,
     log ++ [DiscussTopic (JStr s)]).
Proof.
  destruct Hserves as [_ Hcontent]. specialize (Hcontent log s).
  unfold _get_leetcode_article, post.
  destruct (content cat s) as [t|]; cbn [content_reply] in Hcontent.
  - destruct Hcontent as (body & data & fields & Hr & Hd & Ha & Hc).
    rewrite Hr. unfold read_article. rewrite Hd. cbn. rewrite Ha. cbn.
    destruct fields as [|f fields]; [discriminate|].
    cbn [Py.truthy Py.contains Py.bind Py.getitem]. now rewrite Hc.
  - now rewrite Hcontent.
Qed.

Lemma author_matches_item a profile author_name author_slug :
  Py.getitem profile "realName" = Some (JStr (realName a)) ->
  Py.getitem profile "userSlug" = Some (JStr (userSlug a)) ->
  author_matches profile author_name author_slug
  = Some (accepted (author_name, author_slug) a).
Proof.
  intros Hn Hs. unfold author_matches, accepted. rewrite Hn. cbn.
  destruct (String.eqb (realName a) author_name); [reflexivity|].
  now rewrite Hs.
Qed.

Lemma scan_articles_served author_name author_slug arts : forall items log,
  Forall2 article_item arts items ->
  scan_articles h author_name author_slug items log
  = (Some (option_map JStr
       (fst (spec_scan_listing cat (author_name, author_slug) arts))),
     log ++ snd (spec_scan_listing cat (author_name, author_slug) arts)).
Proof.
  induction arts as [|a arts IH]; intros items log HF; inversion HF; subst.
  - cbn. now rewrite app_nil_r.
  - match goal with H : article_item a _ |- _ =>
      destruct H as (node & author & profile & Hi1 & Hi2 & Hi3 & Hi4 & Hi5 & Hi6)
    end.
    cbn [scan_articles spec_scan_listing].
    unfold read_profile, read_article_slug.
    rewrite Hi1. cbn [Py.bind]. rewrite Hi2. cbn [Py.bind]. rewrite Hi3.
    cbn [Py.bind].
    rewrite (author_matches_item a profile _ _ Hi4 Hi5).
    destruct (accepted (author_name, author_slug) a); [|now apply IH].
    rewrite Hi6, get_article_served. unfold usable.
    destruct (content cat (articleSlug a)) as [t|]; cbn [Py.truthy].
    + destruct (String.eqb t EmptyString); cbn [negb]; [|reflexivity].
      rewrite IH by assumption.
      destruct (spec_scan_listing cat (author_name, author_slug) arts).
      cbn. now rewrite <- app_assoc.
    + rewrite IH by assumption.
      destruct (spec_scan_listing cat (author_name, author_slug) arts).
      cbn. now rewrite <- app_assoc.
Qed.

Lemma try_authors_served : forall authors log,
  try_authors h slug authors log
  = (Return (JStr (fst (spec_try_authors slug cat authors))),
     log ++ snd (spec_try_authors slug cat authors)).
Proof.
  induction authors as [|[author_name author_slug] authors IH]; intros log.
  - cbn. now rewrite app_nil_r.
  - destruct Hserves as [Hlisting _].
    destruct (Hlisting log author_name)
      as (body & Hr & data & found & items & Hd & Hf & He & HF).
    cbn [try_authors spec_try_authors post fst]. rewrite Hr.
    unfold read_edges. rewrite Hd. cbn. rewrite Hf. cbn. rewrite He. cbn.
    rewrite (scan_articles_served author_name author_slug _ _ _ HF).
    destruct (spec_scan_listing cat (author_name, author_slug)
                (listing cat author_name)) as [[t|] reqs]; cbn.
    + now rewrite <- app_assoc.
    + rewrite IH. destruct (spec_try_authors slug cat authors).
      cbn. now rewrite <- !app_assoc.
Qed.

End SolutionFacts.

Section SpecLastRequest.

Variable cat : catalogue.

Lemma spec_scan_listing_last author before a after t :
  barren cat author before ->
  accepted author a = true -> usable cat a = Some t ->
  exists pre,
    snd (spec_scan_listing cat author (before ++ a :: after))
    = pre ++ [DiscussTopic (JStr (articleSlug a))].
Proof.
  intros Hb Ha Ht.
  induction Hb as [|b before Hbar _ IH]; cbn [app spec_scan_listing].
  - rewrite Ha, Ht. now exists [].
  - destruct IH as [pre IH].
    destruct (accepted author b); [|now exists pre].
    rewrite (Hbar eq_refl).
    destruct (spec_scan_listing cat author (before ++ a :: after)).
    cbn [snd] in *. subst. now exists (DiscussTopic (JStr (articleSlug b)) :: pre).
Qed.

Lemma spec_try_authors_last slug tried author rest before a after t :
  Forall (fun x => barren cat x (listing cat (fst x))) tried ->
  listing cat (fst author) = before ++ a :: after ->
  barren cat author before ->
  accepted author a = true -> usable cat a = Some t ->
  exists pre,
    snd (spec_try_authors slug cat (tried ++ author :: rest))
    = pre ++ [DiscussTopic (JStr (articleSlug a))].
Proof.
  intros Htried Hl Hb Ha Ht.
  induction Htried as [|x tried Hx _ IH]; cbn [app spec_try_authors].
  - pose proof (spec_scan_listing_first cat author before a after t Hb Ha Ht)
      as H1.
    destruct (spec_scan_listing_last author before a after t Hb Ha Ht)
      as [pre H2].
    rewrite <- Hl in H1, H2.
    destruct (spec_scan_listing cat author (listing cat (fst author)))
      as [r reqs].
    cbn [fst snd] in *. subst.
    now exists (QuestionTopicsList slug (fst author) :: pre).
  - pose proof (spec_scan_listing_barren cat _ _ Hx) as H1.
    destruct (spec_scan_listing cat x (listing cat (fst x))) as [r reqs].
    cbn [fst] in H1. subst r. destruct IH as [pre IH].
    destruct (spec_try_authors slug cat (tried ++ author :: rest)) as [t' reqs'].
    cbn [snd] in *. subst.
    exists (QuestionTopicsList slug (fst x) :: reqs ++ pre).
    cbn. now rewrite <- app_assoc.
Qed.

Lemma accepted_true author a :
  realName a = fst author \/ userSlug a = snd author ->
  accepted author a = true.
Proof.
  unfold accepted. intros [H|H]; rewrite H, String.eqb_refl;
    [reflexivity | apply orb_true_r].
Qed.

Lemma usable_text a t :
  content cat (articleSlug a) = Some t -> t <> EmptyString ->
  usable cat a = Some t.
Proof.
  intros Hc Hne. unfold usable. rewrite Hc.
  apply String.eqb_neq in Hne. now rewrite Hne.
Qed.

End SpecLastRequest.

(** C4. After a successful slug lookup, and against an endpoint that answers
    the article queries from a catalogue, [get_leetcode_question_solution_by_problem_id]
    does what the specification words: (1) its result and its requests are
    those of [spec_try_authors] over the allow-list, in order; (2) when the
    authors before [author] have no accepted article with non-empty content,
    and [a] is the first article of [author]'s listing, in the order returned,
    whose profile has the author's real name or the author's handle and
    whose content is non-empty, that content is returned, the fetch of [a]
    is the last request, and listings were asked for the authors up to
    [author] only; (3) when no author has such an article the result is
    exactly ["Error fetching solution article"]. *)
Theorem solution_tries_authors_in_order :
  forall (h : host) (fuel : nat) (problem_id : string) (l0 l1 : list request)
         (slug : json) (cat : catalogue),
  find_leetcode_question_slug_by_problem_id h fuel problem_id l0
  = (Return slug, l1) ->
  Py.eq_str slug "No slug found" = false ->
  serves h slug cat ->
  get_leetcode_question_solution_by_problem_id h fuel problem_id l0
  = (Return (JStr (fst (spec_try_authors slug cat WANTED_AUTHORS))),
     l1 ++ snd (spec_try_authors slug cat WANTED_AUTHORS)) /\
  (forall tried author rest before a after t,
     WANTED_AUTHORS = tried ++ author :: rest ->
     Forall (fun x => barren cat x (listing cat (fst x))) tried ->
     listing cat (fst author) = before ++ a :: after ->
     barren cat author before ->
     realName a = fst author \/ userSlug a = snd author ->
     content cat (articleSlug a) = Some t -> t <> EmptyString ->
     exists reqs,
       get_leetcode_question_solution_by_problem_id h fuel problem_id l0
       = (Return (JStr t), l1 ++ reqs ++ [DiscussTopic (JStr (articleSlug a))]) /\
       filter is_listing_query reqs
       = map (fun x => QuestionTopicsList slug (fst x)) (tried ++ [author])) /\
  (Forall (fun x => barren cat x (listing cat (fst x))) WANTED_AUTHORS ->
   fst (get_leetcode_question_solution_by_problem_id h fuel problem_id l0)
   = Return (JStr "Error fetching solution article")).
Proof.
  intros h fuel pid l0 l1 slug cat Hfind Hslug Hserves.
  assert (get_leetcode_question_solution_by_problem_id h fuel pid l0
          = (Return (JStr (fst (spec_try_authors slug cat WANTED_AUTHORS))),
             l1 ++ snd (spec_try_authors slug cat WANTED_AUTHORS))) as Hrun.
  { unfold get_leetcode_question_solution_by_problem_id.
    rewrite Hfind. unfold NO_SLUG. rewrite Hslug.
    now apply try_authors_served. }
  split; [exact Hrun|]. split.
  - intros tried author rest before a after t Hw Htried Hl Hb Ha Hc Hne.
    apply (accepted_true author a) in Ha.
    pose proof (usable_text cat a t Hc Hne) as Hu.
    destruct (spec_try_authors_first cat slug tried author rest before a after t
                Htried Hl Hb Ha Hu) as [Hres Hlist].
    destruct (spec_try_authors_last cat slug tried author rest before a after t
                Htried Hl Hb Ha Hu) as [pre Hlast].
    rewrite <- Hw in Hres, Hlist, Hlast.
    exists pre. rewrite Hrun, Hres, Hlast. split; [reflexivity|].
    rewrite Hlast, filter_app in Hlist. cbn in Hlist.
    now rewrite app_nil_r in Hlist.
  - intros Hall. rewrite Hrun. cbn [fst].
    now rewrite (spec_try_authors_exhausted cat slug _ Hall).
Qed.

Lemma listing_json_body (arts : list article) :
  listing_body arts (listing_json arts).
Proof.
  do 3 eexists. repeat split; try reflexivity.
  induction arts as [|a arts IH]; constructor; [|exact IH].
  do 3 eexists. repeat split; reflexivity.
Qed.

Lemma demo_host_serves : serves demo_host (JStr "two-sum") demo_catalogue.
Proof.
  split.
  - intros log author_name. eexists. split; [reflexivity|].
    apply listing_json_body.
  - intros log s. cbn [endpoint demo_host posix_host].
    destruct (content demo_catalogue s) as [t|]; cbn [content_reply];
      [|reflexivity].
    do 3 eexists. repeat split; reflexivity.
Qed.

(** The first author's article is empty; the second author's listing holds a
    foreign article, then one accepted on the handle alone. *)
Lemma solution_tries_authors_witness :
  get_leetcode_question_solution_by_problem_id demo_host 1 "1" []
  = (Return (JStr "# solution"),
     [ProblemsetQuestionListV2 "1" 0 100;
      QuestionTopicsList (JStr "two-sum") "宫水三叶";
      DiscussTopic (JStr "b0");
      QuestionTopicsList (JStr "two-sum") "灵茶山艾府";
      DiscussTopic (JStr "a1")]).
Proof.
  destruct (solution_tries_authors_in_order demo_host 1 "1" []
              [ProblemsetQuestionListV2 "1" 0 100] (JStr "two-sum")
              demo_catalogue) as [Hrun _].
  - reflexivity.
  - reflexivity.
  - exact demo_host_serves.
  - exact Hrun.
Defined.

(** ** Termination *)

Lemma endless_lookup_runs_on (pid : string) : forall fuel start log,
  fst (find_slug_from endless_host fuel pid start log) = OutOfFuel.
Proof.
  induction fuel as [|fuel IH]; intros start log; [reflexivity|].
  cbn [find_slug_from post]. cbn. apply IH.
Qed.

Section BoundedPagination.

Variable h : host.
Variable N : nat.
Hypothesis Hbound : forall log pid k,
  (N <= k)%nat -> ~ reports_more (endpoint h log (page_request pid k)).

Lemma find_slug_from_returns pid : forall fuel start log,
  (1 <= fuel)%nat -> (N < start + fuel)%nat ->
  exists v log', find_slug_from h fuel pid start log = (Return v, log').
Proof.
  induction fuel as [|fuel IH]; intros start log Hpos Hlt; [lia|].
  cbn [find_slug_from post].
  destruct (endpoint h log (page_request pid start)) as [|body] eqn:Hr;
    [now eauto|].
  destruct (read_page pid body) as [[slug| |]|] eqn:Hp; try (now eauto).
  assert (start < N)%nat as Hstart.
  { destruct (Nat.lt_ge_cases start N) as [|Hge]; [assumption|].
    exfalso. apply (Hbound log pid start Hge).
    rewrite Hr. exact (read_page_more pid body Hp). }
  apply IH; lia.
Qed.

Lemma try_authors_returns slug : forall authors log,
  exists v log', try_authors h slug authors log = (Return v, log').
Proof.
  induction authors as [|[author_name author_slug] authors IH]; intros log.
  - do 2 eexists. reflexivity.
  - cbn [try_authors post].
    destruct (endpoint h log (QuestionTopicsList slug author_name));
      [apply IH|].
    destruct (read_edges body) as [articles|]; [|apply IH].
    destruct (scan_articles h author_name author_slug articles _)
      as [[[content|]|] log']; [now eauto | apply IH | apply IH].
Qed.

Lemma solution_by_problem_id_returns fuel pid log :
  (N < fuel)%nat ->
  exists v log',
    get_leetcode_question_solution_by_problem_id h fuel pid log
    = (Return v, log').
Proof.
  intros Hlt. unfold get_leetcode_question_solution_by_problem_id,
    find_leetcode_question_slug_by_problem_id.
  destruct (find_slug_from_returns pid fuel 0 log) as (slug & log' & Hfind);
    [lia | lia |].
  rewrite Hfind.
  destruct (Py.eq_str slug NO_SLUG); [now eauto|].
  apply try_authors_returns.
Qed.

End BoundedPagination.

Lemma desc_by_slug_returns (h : host) (slug : string) (log : list request) :
  exists v log', _get_leetcode_question_desc_by_slug h slug log = (Return v, log').
Proof.
  unfold _get_leetcode_question_desc_by_slug, post.
  destruct (endpoint h log (desc_request h slug)) as [|body]; [now eauto|].
  destruct (read_desc h body); now eauto.
Qed.

(** C2, the claim as stated fails: an endpoint that always announces a
    further page keeps [find_leetcode_question_slug_by_problem_id] running
    for ever although each request is answered; a question whose translated
    content is [null] makes [get_leetcode_question_desc_by_problem_id] return
    [None], not a string; and a cache file that cannot be read makes
    [get_leetcode_question_desc] raise. *)
Lemma tools_not_total_on_every_endpoint :
  diverges (fun fuel =>
    find_leetcode_question_slug_by_problem_id endless_host fuel "1" []) /\
  get_leetcode_question_desc_by_problem_id untranslated_host "1" []
  = (Return JNull, [QuestionTranslations "1"]) /\
  get_leetcode_question_desc (two_sum_host undecodable_files) 1
    "problems/problems_1/solution.py" []
  = (Raise, []).
Proof.
  split; [|split; reflexivity].
  intros fuel. apply endless_lookup_runs_on.
Qed.

(** ** The description fetcher without a cache file *)

Lemma desc_issues_no_content_query (h : host) : forall fuel file_path log,
  filter is_content_query (snd (get_leetcode_question_desc h fuel file_path log))
  = filter is_content_query log.
Proof.
  induction fuel as [|fuel IH]; intros file_path log; [reflexivity|].
  cbn [get_leetcode_question_desc].
  destruct (disk h _); try reflexivity.
  unfold find_leetcode_question_slug, find_leetcode_question_slug_by_problem_id.
  destruct (find_slug_from_log h
              (_folder_name_to_problem_id (path_name h (path_parent h file_path)))
              (S fuel) 0 log) as [k Hk].
  destruct (find_slug_from h (S fuel) _ 0 log) as [o log1].
  cbn [snd] in Hk.
  assert (filter is_content_query log1 = filter is_content_query log) as Hlog.
  { rewrite Hk, filter_app, filter_page_requests, app_nil_r; reflexivity. }
  destruct o as [v| |]; try exact Hlog.
  destruct v; try exact Hlog.
  now rewrite IH.
Qed.

Lemma desc_without_cache_runs_on : forall fuel file_path log,
  fst (get_leetcode_question_desc (two_sum_host no_files) fuel file_path log)
  = OutOfFuel.
Proof.
  induction fuel as [|fuel IH]; intros file_path log; [reflexivity|].
  cbn [get_leetcode_question_desc two_sum_host posix_host disk no_files].
  unfold find_leetcode_question_slug, find_leetcode_question_slug_by_problem_id.
  cbn [find_slug_from post endpoint two_sum_host posix_host page_request].
  destruct (String.eqb _ "1") eqn:E.
  - apply String.eqb_eq in E. rewrite E. cbn. apply IH.
  - cbn. apply IH.
Qed.

Lemma never_returns_of_runs_on (o : outcome) :
  o = OutOfFuel -> forall v, o <> Return v.
Proof. intros -> v. discriminate. Qed.

(** C3, on the code. Without a cache file [get_leetcode_question_desc] calls
    itself on the slug, as if the slug were a file path, and never
    [_get_leetcode_question_desc_by_slug]: whatever the host, it issues no
    content query. For the file [problems/problems_1/solution.py] the slug
    resolves to [two-sum] and the content query for it would be answered,
    but no number of self-calls makes the tool return a value; nor does it
    when the slug lookup fails. *)
Theorem desc_by_file_never_queries_content :
  (forall (h : host) (fuel : nat) (file_path : string) (log : list request),
     filter is_content_query
       (snd (get_leetcode_question_desc h fuel file_path log))
     = filter is_content_query log) /\
  find_leetcode_question_slug (two_sum_host no_files) 1
    "problems/problems_1/solution.py" []
  = (Return (JStr "two-sum"), [ProblemsetQuestionListV2 "1" 0 100]) /\
  _get_leetcode_question_desc_by_slug (two_sum_host no_files) "two-sum"
    [ProblemsetQuestionListV2 "1" 0 100]
  = (Return (JStr "<p>two sum</p>"),
     [ProblemsetQuestionListV2 "1" 0 100; QuestionTranslations "two-sum"]) /\
  (forall (fuel : nat) (v : json),
     fst (get_leetcode_question_desc (two_sum_host no_files) fuel
            "problems/problems_1/solution.py" [])
     <> Return v) /\
  (forall (fuel : nat) (v : json),
     fst (get_leetcode_question_desc offline_host fuel
            "problems/problems_1/solution.py" [])
     <> Return v).
Proof.
  split; [exact desc_issues_no_content_query|].
  split; [reflexivity|]. split; [reflexivity|]. split.
  - intros fuel. apply never_returns_of_runs_on, desc_without_cache_runs_on.
  - intros fuel. apply never_returns_of_runs_on.
    generalize "problems/problems_1/solution.py".
    generalize (@nil request).
    induction fuel as [|fuel IH]; intros log file_path; [reflexivity|].
    cbn. apply IH.
Qed.

(** * Further properties *)

(** ** The identifier normaliser on every input *)

Section ReplaceFacts.

Import PyStr.

Variables old new : string.

Lemma prefix_nil s : prefix EmptyString s = true.
Proof. now destruct s. Qed.

Lemma prefix_cons a o c s :
  prefix (String a o) (String c s) = true <-> a = c /\ prefix o s = true.
Proof.
  cbn [prefix]. destruct (ascii_dec a c) as [->|Hne]; split.
  - now intros H.
  - now intros [_ H].
  - discriminate.
  - intros [H _]. contradiction.
Qed.

Lemma no_common_char_spec a b c :
  no_common_char a b = true -> has_char c a = true -> has_char c b = false.
Proof.
  induction a as [|d a IH]; cbn [no_common_char has_char]; [discriminate|].
  intros Hno Hc. apply andb_true_iff in Hno as [Hd Ha].
  apply orb_true_iff in Hc as [Hc|Hc]; [|now apply IH].
  apply Ascii.eqb_eq in Hc. subst d. now apply negb_true_iff in Hd.
Qed.

(** A string made of characters foreign to [new] heads the output only
    where it heads the input. *)
Lemma prefix_replace_from_reflects : forall s o,
  new <> EmptyString -> no_common_char o new = true ->
  prefix o (replace_from 0 old new s) = true -> prefix o s = true.
Proof.
  induction s as [|c s IH]; intros o Hnew Hno Hp.
  - exact Hp.
  - destruct o as [|a o]; [reflexivity|].
    cbn [no_common_char] in Hno. apply andb_true_iff in Hno as [Ha Ho].
    apply negb_true_iff in Ha.
    cbn [replace_from] in Hp. destruct (prefix old (String c s)).
    + destruct new as [|n new']; [contradiction|].
      cbn [append] in Hp. apply prefix_cons in Hp as [-> _].
      cbn [has_char] in Ha. now rewrite Ascii.eqb_refl in Ha.
    + apply prefix_cons in Hp as [-> Hp]. apply prefix_cons.
      split; [reflexivity|]. now apply IH.
Qed.

Lemma contains_skips_foreign a o : forall n rest,
  has_char a n = false ->
  contains (String a o) (n ++ rest)%string = contains (String a o) rest.
Proof.
  induction n as [|c n IH]; intros rest Hn; [reflexivity|].
  cbn [has_char] in Hn. apply orb_false_iff in Hn as [Hc Hn].
  cbn [append contains]. rewrite (IH rest Hn).
  destruct (prefix (String a o) (String c (n ++ rest))) eqn:E; [|reflexivity].
  apply prefix_cons in E as [-> _]. now rewrite Ascii.eqb_refl in Hc.
Qed.

(** With a replacement text that shares no character with the needle, no
    occurrence of the needle is left. *)
Lemma replace_from_leaves_none : forall s skip,
  old <> EmptyString -> new <> EmptyString -> no_common_char old new = true ->
  contains old (replace_from skip old new s) = false.
Proof.
  intros s skip Hold Hnew Hno. revert skip.
  destruct old as [|a o] eqn:Eold; [contradiction|]. rewrite <- Eold in *.
  induction s as [|c s IH]; intros skip.
  - rewrite Eold. reflexivity.
  - cbn [replace_from]. destruct skip as [|k]; [|apply IH].
    destruct (prefix old (String c s)) eqn:Ep.
    + rewrite Eold. rewrite contains_skips_foreign.
      * rewrite <- Eold. apply IH.
      * rewrite Eold in Hno. cbn [no_common_char] in Hno.
        apply andb_true_iff in Hno as [Ha _]. now apply negb_true_iff in Ha.
    + cbn [contains]. rewrite IH, orb_false_r.
      destruct (prefix old (String c (replace_from 0 old new s))) eqn:E;
        [|reflexivity].
      assert (prefix old (replace_from 0 old new (String c s)) = true) as E'.
      { cbn [replace_from]. now rewrite Ep. }
      apply prefix_replace_from_reflects in E'; [|assumption|assumption].
      congruence.
Qed.

End ReplaceFacts.

Section NormaliserOnEveryInput.

Import PyStr.

Lemma interview_leaves_none s : contains "Interview" (interview s) = false.
Proof.
  unfold interview. destruct (contains "Interview" s) eqn:E; [|exact E].
  apply replace_from_leaves_none; [discriminate | discriminate | reflexivity].
Qed.

Lemma normalised_is_fixed s :
  has_char "_" s = false -> contains "Interview" s = false ->
  _folder_name_to_problem_id s = s.
Proof.
  intros Hu Hi.
  assert (contains "_" s = false) as H1
    by now rewrite (contains_char_has_char "_").
  unfold _folder_name_to_problem_id.
  rewrite (strip_prefix_without_underscore s H1).
  unfold dunder_to_dot.
  rewrite (no_char_no_contains "_" "__" s eq_refl Hu).
  unfold underscore_to_space. rewrite H1.
  rewrite (jz_offer_idle s Hu). unfold interview. now rewrite Hi.
Qed.

Lemma normaliser_output_clean s :
  has_char "_" (_folder_name_to_problem_id s) = false.
Proof.
  unfold _folder_name_to_problem_id.
  rewrite (jz_offer_idle _ (underscore_to_space_clean _)).
  apply interview_clean, underscore_to_space_clean.
Qed.

Lemma normaliser_output_no_interview s :
  contains "Interview" (_folder_name_to_problem_id s) = false.
Proof. unfold _folder_name_to_problem_id. apply interview_leaves_none. Qed.

Lemma find_after_clean_prefix p : forall rest,
  has_char "_" p = false ->
  find "_" (p ++ String "_" rest)%string = Z.of_nat (String.length p).
Proof.
  induction p as [|c p IH]; intros rest Hp.
  - cbn [append find]. now rewrite prefix_single.
  - cbn [has_char] in Hp. apply orb_false_iff in Hp as [Hc Hp].
    cbn [append find]. rewrite prefix_single, Hc, (IH rest Hp).
    cbn [String.length].
    destruct (Z.of_nat (String.length p) <? 0) eqn:E; [|lia].
    apply Z.ltb_lt in E. lia.
Qed.

Lemma drop_past_prefix p c rest :
  drop (S (String.length p)) (p ++ String c rest)%string = rest.
Proof. induction p as [|d p IH]; [reflexivity | exact IH]. Qed.

Lemma strip_prefix_at_first_underscore p rest :
  has_char "_" p = false ->
  strip_prefix (p ++ String "_" rest)%string = rest.
Proof.
  intros Hp. unfold strip_prefix, slice_from.
  rewrite (find_after_clean_prefix p rest Hp).
  destruct (Z.of_nat (String.length p) + 1 <? 0) eqn:E;
    [apply Z.ltb_lt in E; lia|].
  replace (Z.to_nat (Z.of_nat (String.length p) + 1))
    with (S (String.length p)) by lia.
  apply drop_past_prefix.
Qed.

Lemma replace_underscore_is_map : forall s,
  replace "_" " " s = underscores_as_spaces s.
Proof.
  unfold replace. induction s as [|c s IH]; [reflexivity|].
  cbn [replace_from underscores_as_spaces]. rewrite prefix_single.
  destruct (Ascii.eqb c "_"); cbn; now rewrite IH.
Qed.

Lemma underscores_as_spaces_clean : forall s,
  has_char "_" s = false -> underscores_as_spaces s = s.
Proof.
  induction s as [|c s IH]; [reflexivity|].
  cbn [has_char underscores_as_spaces]. intros H.
  apply orb_false_iff in H as [Hc Hs]. now rewrite Hc, IH.
Qed.

Lemma underscore_to_space_is_map s :
  underscore_to_space s = underscores_as_spaces s.
Proof.
  unfold underscore_to_space. destruct (contains "_" s) eqn:E.
  - apply replace_underscore_is_map.
  - rewrite (contains_char_has_char "_") in E.
    now rewrite underscores_as_spaces_clean.
Qed.

Lemma contains_app_intro sub : forall s1 s2,
  prefix sub s2 = true -> contains sub (s1 ++ s2)%string = true.
Proof.
  induction s1 as [|c s1 IH]; intros s2 H.
  - cbn [append]. destruct s2; cbn [contains]; now rewrite H.
  - cbn [append contains]. rewrite (IH s2 H). apply orb_true_r.
Qed.

Lemma replace_dunder_passes_clean : forall a rest,
  has_char "_" a = false ->
  replace_from 0 "__" "." (a ++ rest)%string
  = (a ++ replace_from 0 "__" "." rest)%string.
Proof.
  induction a as [|c a IH]; intros rest Ha; [reflexivity|].
  cbn [has_char] in Ha. apply orb_false_iff in Ha as [Hc Ha].
  cbn [append replace_from].
  assert (prefix "__" (String c (a ++ rest)) = false) as Hp.
  { destruct (prefix "__" (String c (a ++ rest))) eqn:E; [|reflexivity].
    apply prefix_cons in E as [<- _]. discriminate. }
  now rewrite Hp, IH.
Qed.

Lemma append_empty_r : forall s : string, (s ++ EmptyString)%string = s.
Proof. induction s as [|c s IH]; cbn; [reflexivity | now rewrite IH]. Qed.

Lemma replace_dunder_between a b :
  has_char "_" a = false -> has_char "_" b = false ->
  replace "__" "." (a ++ "__" ++ b)%string = (a ++ "." ++ b)%string.
Proof.
  intros Ha Hb. unfold replace.
  rewrite (replace_dunder_passes_clean a _ Ha). f_equal.
  pose proof (replace_dunder_passes_clean b EmptyString Hb) as H.
  rewrite !append_empty_r in H.
  cbn. rewrite prefix_nil. now rewrite H.
Qed.

End NormaliserOnEveryInput.

(** X1. [_folder_name_to_problem_id] is idempotent on every folder name:
    its result has no underscore and no [Interview] left, and on such a
    string every step of the function is idle. *)
Theorem folder_name_idempotent : forall folder_name : string,
  _folder_name_to_problem_id (_folder_name_to_problem_id folder_name)
  = _folder_name_to_problem_id folder_name.
Proof.
  intros s. apply normalised_is_fixed.
  - apply normaliser_output_clean.
  - apply normaliser_output_no_interview.
Qed.

(** X2. The value [_folder_name_to_problem_id] returns never contains
    [Interview]: every occurrence is replaced, and the replacement text
    cannot complete a new one. *)
Theorem folder_name_result_has_no_interview : forall folder_name : string,
  PyStr.contains "Interview" (_folder_name_to_problem_id folder_name) = false.
Proof. exact normaliser_output_no_interview. Qed.

(** X3. Only what follows the first underscore of the folder name matters:
    two folder names that differ in the part before it, a part without
    underscore, get the same identifier. *)
Theorem folder_name_ignores_prefix : forall (p q rest : string),
  PyStr.has_char "_" p = false ->
  PyStr.has_char "_" q = false ->
  _folder_name_to_problem_id (p ++ String "_" rest)%string
  = _folder_name_to_problem_id (q ++ String "_" rest)%string.
Proof.
  intros p q rest Hp Hq. unfold _folder_name_to_problem_id.
  now rewrite !strip_prefix_at_first_underscore.
Qed.

Lemma folder_name_ignores_prefix_witness :
  _folder_name_to_problem_id "problems_LCR_001"
  = _folder_name_to_problem_id "premiums_LCR_001".
Proof.
  apply (folder_name_ignores_prefix "problems" "premiums" "LCR_001");
    reflexivity.
Defined.

(** X4. For a folder name [<prefix>_<rest>] whose prefix has no underscore
    and whose rest has no double underscore, the identifier is the rest with
    each underscore turned into a space, and then [Interview] into its
    Chinese form; a rest with no underscore and no [Interview] is returned
    as it is. *)
Theorem folder_name_spaces_the_rest : forall (p rest : string),
  PyStr.has_char "_" p = false ->
  PyStr.contains "__" rest = false ->
  _folder_name_to_problem_id (p ++ String "_" rest)%string
  = interview (underscores_as_spaces rest) /\
  (PyStr.has_char "_" rest = false ->
   PyStr.contains "Interview" rest = false ->
   _folder_name_to_problem_id (p ++ String "_" rest)%string = rest).
Proof.
  intros p rest Hp Hdd.
  assert (_folder_name_to_problem_id (p ++ String "_" rest)%string
          = interview (underscores_as_spaces rest)) as Hrun.
  { unfold _folder_name_to_problem_id.
    rewrite (strip_prefix_at_first_underscore p rest Hp).
    unfold dunder_to_dot. rewrite Hdd.
    rewrite (jz_offer_idle _ (underscore_to_space_clean rest)).
    now rewrite underscore_to_space_is_map. }
  split; [exact Hrun|].
  intros Hu Hi. rewrite Hrun, (underscores_as_spaces_clean rest Hu).
  unfold interview. now rewrite Hi.
Qed.

Lemma folder_name_spaces_the_rest_witness :
  _folder_name_to_problem_id "problems_Interview_04_01" = "面试题 04 01".
Proof.
  destruct (folder_name_spaces_the_rest "problems" "Interview_04_01")
    as [Hrun _]; [reflexivity | reflexivity | exact Hrun].
Defined.

(** X5. A double underscore between two parts without underscore becomes a
    decimal point: for a prefix, [a] and [b] without underscore, the folder
    name [<prefix>_<a>__<b>] gives [<a>.<b>] (when that holds no
    [Interview]). *)
Theorem folder_name_decimal_point : forall (p a b : string),
  PyStr.has_char "_" p = false ->
  PyStr.has_char "_" a = false ->
  PyStr.has_char "_" b = false ->
  PyStr.contains "Interview" (a ++ "." ++ b)%string = false ->
  _folder_name_to_problem_id (p ++ String "_" (a ++ "__" ++ b))%string
  = (a ++ "." ++ b)%string.
Proof.
  intros p a b Hp Ha Hb Hi. unfold _folder_name_to_problem_id.
  rewrite (strip_prefix_at_first_underscore p _ Hp).
  unfold dunder_to_dot.
  rewrite (contains_app_intro "__" a ("__" ++ b)%string)
    by (cbn; apply prefix_nil).
  rewrite (replace_dunder_between a b Ha Hb).
  assert (PyStr.has_char "_" (a ++ "." ++ b)%string = false) as Hclean.
  { rewrite !has_char_app, Ha, Hb. reflexivity. }
  unfold underscore_to_space.
  rewrite (contains_char_has_char "_"), Hclean.
  rewrite (jz_offer_idle _ Hclean). unfold interview. now rewrite Hi.
Qed.

Lemma folder_name_decimal_point_witness :
  _folder_name_to_problem_id "problems_LCP 17__04" = "LCP 17.04".
Proof.
  apply (folder_name_decimal_point "problems" "LCP 17" "04"); reflexivity.
Defined.

(** ** The slug resolver against any endpoint *)

Section SlugResolverOnAnyEndpoint.

Variable h : host.
Variable pid : string.

Lemma find_slug_from_trace : forall fuel start log,
  exists k, (k <= fuel)%nat /\
    snd (find_slug_from h fuel pid start log)
    = log ++ requests_from pid start k /\
    fst (find_slug_from h fuel pid start log) <> Raise.
Proof.
  induction fuel as [|fuel IH]; intros start log.
  - exists 0%nat. cbn. rewrite app_nil_r. repeat split; [lia|discriminate].
  - cbn [find_slug_from post].
    destruct (endpoint h log (page_request pid start)) as [|body].
    { exists 1%nat. repeat split; [lia|discriminate]. }
    destruct (read_page pid body) as [[slug| |]|];
      try (exists 1%nat; repeat split; [lia|discriminate]).
    destruct (IH (S start) (log ++ [page_request pid start]))
      as (k & Hk & Hlog & Hout).
    exists (S k). rewrite Hlog, <- app_assoc. repeat split; [lia|exact Hout].
Qed.

Lemma eq_str_true v s : Py.eq_str v s = true -> v = JStr s.
Proof.
  destruct v; cbn; try discriminate.
  intros H. apply String.eqb_eq in H. now subst.
Qed.

Lemma scan_questions_found : forall items slug,
  scan_questions pid items = Some (Some slug) ->
  exists item, In item items /\
    Py.getitem item "questionFrontendId" = Some (JStr pid) /\
    Py.getitem item "titleSlug" = Some slug.
Proof.
  induction items as [|item items IH]; intros slug H; [discriminate|].
  cbn [scan_questions] in H. unfold Py.bind in H.
  destruct (Py.getitem item "questionFrontendId") as [fid|] eqn:Hfid;
    [|discriminate].
  destruct (Py.eq_str fid pid) eqn:Heq.
  - apply eq_str_true in Heq. subst fid.
    destruct (Py.getitem item "titleSlug") as [v|] eqn:Hslug; [|discriminate].
    injection H as <-. exists item. repeat split; [now left | | ]; assumption.
  - destruct (IH slug H) as (item' & Hin & H1 & H2).
    exists item'. repeat split; [now right | | ]; assumption.
Qed.

Lemma read_page_found body slug :
  read_page pid body = Some (Found slug) -> offers body pid slug.
Proof.
  unfold read_page, Py.bind. intros H.
  destruct (Py.getitem body "data") as [data|] eqn:Hd; [|discriminate].
  destruct (Py.getitem data "problemsetQuestionListV2") as [res|] eqn:Hr;
    [|discriminate].
  destruct (Py.getitem res "questions") as [qs|] eqn:Hq; [|discriminate].
  destruct (Py.iter qs) as [items|] eqn:Hi; [|discriminate].
  destruct (scan_questions pid items) as [[v|]|] eqn:Hs; try discriminate.
  - injection H as <-.
    destruct (scan_questions_found items v Hs) as (item & Hin & H1 & H2).
    now exists data, res, qs, items, item.
  - destruct (Py.getitem res "hasMore") as [hm|]; [|discriminate].
    destruct (Py.truthy hm); discriminate.
Qed.

Lemma find_slug_from_sound : forall fuel start log v l1,
  find_slug_from h fuel pid start log = (Return v, l1) ->
  v = JStr NO_SLUG \/
  exists j body,
    endpoint h (log ++ requests_from pid start j)
             (page_request pid (start + j)) = Body body /\
    offers body pid v /\
    l1 = log ++ requests_from pid start (S j).
Proof.
  induction fuel as [|fuel IH]; intros start log v l1 H; [discriminate|].
  cbn [find_slug_from post] in H.
  destruct (endpoint h log (page_request pid start)) as [|body] eqn:Hr.
  { injection H as <- _. now left. }
  destruct (read_page pid body) as [[slug| |]|] eqn:Hp.
  - injection H as <- <-. right. exists 0%nat, body.
    cbn [requests_from seq map]. rewrite app_nil_r, Nat.add_0_r.
    repeat split; [exact Hr | now apply read_page_found].
  - destruct (IH _ _ _ _ H) as [Hv | (j & body' & Hb & Ho & Hl)];
      [now left|].
    right. exists (S j), body'.
    rewrite requests_from_cons, Nat.add_succ_r.
    rewrite <- !app_assoc in *. cbn [app] in *.
    repeat split; assumption.
  - injection H as <- _. now left.
  - injection H as <- _. now left.
Qed.

End SlugResolverOnAnyEndpoint.

(** X6. Whatever the endpoint answers, [find_leetcode_question_slug_by_problem_id]
    asks for nothing but pages of the question list: page [0], page [1], ...
    without a gap, each with the input as [searchKeyword], [skip] a multiple
    of [100] and [limit = 100]; and it never raises. *)
Theorem find_slug_requests_consecutive_pages :
  forall (h : host) (fuel : nat) (frontend_problem_id : string)
         (l0 : list request),
  exists k, (k <= fuel)%nat /\
    snd (find_leetcode_question_slug_by_problem_id h fuel frontend_problem_id l0)
    = l0 ++ map (fun page_no =>
                   ProblemsetQuestionListV2 frontend_problem_id
                     (Z.of_nat page_no * 100) 100)
                (seq 0 k) /\
    fst (find_leetcode_question_slug_by_problem_id h fuel frontend_problem_id l0)
    <> Raise.
Proof.
  intros h fuel pid l0.
  exact (find_slug_from_trace h pid fuel 0 l0).
Qed.

(** X7. [find_leetcode_question_slug_by_problem_id] returns either
    ["No slug found"] or the [titleSlug] of a question that the endpoint
    listed, on the last page fetched, with a [questionFrontendId] equal to
    the input as a string: it never hands out the slug of another problem. *)
Theorem find_slug_returns_listed_match :
  forall (h : host) (fuel : nat) (frontend_problem_id : string)
         (l0 l1 : list request) (v : json),
  find_leetcode_question_slug_by_problem_id h fuel frontend_problem_id l0
  = (Return v, l1) ->
  v = JStr "No slug found" \/
  exists page_no body,
    served h frontend_problem_id l0 page_no = Body body /\
    offers body frontend_problem_id v /\
    l1 = l0 ++ page_requests frontend_problem_id (S page_no).
Proof.
  intros h fuel pid l0 l1 v H.
  exact (find_slug_from_sound h pid fuel 0 l0 v l1 H).
Qed.

Lemma find_slug_returns_listed_match_witness :
  JStr "answer-slug" = JStr "No slug found" \/
  exists page_no body,
    served mock_host "42" [] page_no = Body body /\
    offers body "42" (JStr "answer-slug") /\
    [ProblemsetQuestionListV2 "42" 0 100] = [] ++ page_requests "42" (S page_no).
Proof.
  apply (find_slug_returns_listed_match mock_host 1 "42" []). reflexivity.
Defined.

(** ** Articles and the author loop against any endpoint *)

Lemma read_article_closed (body : json) :
  match read_article body with Some v => v | None => JNull end
  = match (data <- Py.getitem body "data" ;; Py.getitem data "solutionArticle") with
    | Some (JObj fields) =>
        match Py.assoc "content" fields with Some v => v | None => JNull end
    | _ => JNull
    end.
Proof.
  unfold read_article, Py.bind.
  destruct (Py.getitem body "data") as [data|]; [|reflexivity].
  destruct (Py.getitem data "solutionArticle") as [article_data|];
    [|reflexivity].
  destruct article_data as [|b|n|s|items|fields]; cbn.
  - reflexivity.
  - now destruct b.
  - now destruct (n =? 0).
  - destruct (String.eqb s EmptyString); cbn; [reflexivity|].
    now destruct (PyStr.contains "content" s).
  - destruct items; [reflexivity|]. cbn.
    now destruct (_ || _).
  - destruct fields as [|f fields]; [reflexivity|].
    cbn [Py.assoc]. destruct f as [k v].
    destruct (String.eqb k "content"); [reflexivity|].
    now destruct (Py.assoc "content" fields).
Qed.

Section ArticlesOnAnyEndpoint.

Variable h : host.

Lemma get_article_closed s log :
  _get_leetcode_article h s log
  = (match endpoint h log (DiscussTopic s) with
     | Fails => JNull
     | Body body =>
         match (data <- Py.getitem body "data" ;;
                Py.getitem data "solutionArticle") with
         | Some (JObj fields) =>
             match Py.assoc "content" fields with
             | Some v => v
             | None => JNull
             end
         | _ => JNull
         end
     end,
     log ++ [DiscussTopic s]).
Proof.
  unfold _get_leetcode_article, post.
  destruct (endpoint h log (DiscussTopic s)) as [|body]; [reflexivity|].
  rewrite <- read_article_closed. now destruct (read_article body).
Qed.

Lemma get_article_carried s log v :
  carries_content (endpoint h log (DiscussTopic s)) v ->
  fst (_get_leetcode_article h s log) = v.
Proof.
  intros (body & data & fields & Hr & Hd & Ha & Hc).
  rewrite get_article_closed, Hr. cbn [fst]. unfold Py.bind.
  now rewrite Hd, Ha, Hc.
Qed.

Lemma get_article_not_carried s log :
  (forall v, ~ carries_content (endpoint h log (DiscussTopic s)) v) ->
  fst (_get_leetcode_article h s log) = JNull.
Proof.
  intros Hnone. rewrite get_article_closed. cbn [fst].
  destruct (endpoint h log (DiscussTopic s)) as [|body] eqn:Hr; [reflexivity|].
  unfold Py.bind.
  destruct (Py.getitem body "data") as [data|] eqn:Hd; [|reflexivity].
  destruct (Py.getitem data "solutionArticle") as [[| | | | |fields]|] eqn:Ha;
    try reflexivity.
  destruct (Py.assoc "content" fields) as [v|] eqn:Hc; [|reflexivity].
  exfalso. apply (Hnone v). now exists body, data, fields.
Qed.

Lemma get_article_truthy s log :
  Py.truthy (fst (_get_leetcode_article h s log)) = true ->
  carries_content (endpoint h log (DiscussTopic s))
                  (fst (_get_leetcode_article h s log)).
Proof.
  rewrite get_article_closed. cbn [fst].
  destruct (endpoint h log (DiscussTopic s)) as [|body] eqn:Hr; [discriminate|].
  unfold Py.bind.
  destruct (Py.getitem body "data") as [data|] eqn:Hd; [|discriminate].
  destruct (Py.getitem data "solutionArticle") as [[| | | | |fields]|] eqn:Ha;
    try discriminate.
  destruct (Py.assoc "content" fields) as [v|] eqn:Hc; [|discriminate].
  intros _. now exists body, data, fields.
Qed.

Lemma scan_articles_sound author_name author_slug : forall items log c l,
  scan_articles h author_name author_slug items log = (Some (Some c), l) ->
  Py.truthy c = true /\
  exists log' article_slug,
    carries_content (endpoint h log' (DiscussTopic article_slug)) c.
Proof.
  induction items as [|item items IH]; intros log c l H; [discriminate|].
  cbn [scan_articles] in H.
  destruct (read_profile item) as [profile|]; [|discriminate].
  destruct (author_matches profile author_name author_slug) as [[|]|];
    [|now apply (IH log c l)|discriminate].
  destruct (read_article_slug item) as [article_slug|]; [|discriminate].
  pose proof (get_article_truthy article_slug log) as Hcarried.
  destruct (_get_leetcode_article h article_slug log) as [content log'].
  cbn [fst] in Hcarried.
  destruct (Py.truthy content) eqn:Ht; [|now apply (IH log' c l)].
  injection H as <- _. split; [exact Ht|].
  exists log, article_slug. now apply Hcarried.
Qed.

Lemma scan_articles_trace author_name author_slug : forall items log,
  exists extra,
    snd (scan_articles h author_name author_slug items log) = log ++ extra /\
    Forall (fun req => is_article_query req = true) extra.
Proof.
  induction items as [|item items IH]; intros log.
  - exists []. cbn. now rewrite app_nil_r.
  - cbn [scan_articles].
    destruct (read_profile item) as [profile|];
      [|exists []; cbn; now rewrite app_nil_r].
    destruct (author_matches profile author_name author_slug) as [[|]|];
      [|apply IH|exists []; cbn; now rewrite app_nil_r].
    destruct (read_article_slug item) as [article_slug|];
      [|exists []; cbn; now rewrite app_nil_r].
    rewrite get_article_closed.
    match goal with |- context [Py.truthy ?c] => destruct (Py.truthy c) end.
    + exists [DiscussTopic article_slug]. cbn [snd]. split; [reflexivity|].
      now repeat constructor.
    + destruct (IH (log ++ [DiscussTopic article_slug])) as (extra & He & Hf).
      exists (DiscussTopic article_slug :: extra).
      rewrite He, <- app_assoc. split; [reflexivity|]. now constructor.
Qed.

Lemma article_queries_are_no_listing extra :
  Forall (fun req => is_article_query req = true) extra ->
  filter is_listing_query extra = [] /\
  Forall (fun req => is_listing_query req || is_article_query req = true) extra.
Proof.
  induction 1 as [|req extra Hreq _ [IH1 IH2]]; [now split|].
  destruct req; try discriminate. cbn. split; [exact IH1|].
  now constructor.
Qed.

Variable slug : json.

Lemma try_authors_sound : forall authors log o l,
  try_authors h slug authors log = (o, l) ->
  o = Return (JStr ARTICLE_ERROR) \/
  exists c, o = Return c /\ Py.truthy c = true /\
    exists log' article_slug,
      carries_content (endpoint h log' (DiscussTopic article_slug)) c.
Proof.
  induction authors as [|[author_name author_slug] authors IH];
    intros log o l H.
  - injection H as <- _. now left.
  - cbn [try_authors post] in H.
    destruct (endpoint h log (QuestionTopicsList slug author_name))
      as [|body]; [now apply (IH _ _ _ H)|].
    destruct (read_edges body) as [articles|]; [|now apply (IH _ _ _ H)].
    destruct (scan_articles h author_name author_slug articles _)
      as [[[c|]|] l'] eqn:Hs;
      [|now apply (IH _ _ _ H)|now apply (IH _ _ _ H)].
    injection H as <- _. right. exists c. split; [reflexivity|].
    exact (scan_articles_sound _ _ _ _ _ _ Hs).
Qed.

Lemma try_authors_trace : forall authors log,
  exists k extra,
    (k <= length authors)%nat /\
    snd (try_authors h slug authors log) = log ++ extra /\
    filter is_listing_query extra
    = map (fun author => QuestionTopicsList slug (fst author))
          (firstn k authors) /\
    Forall (fun req => is_listing_query req || is_article_query req = true)
           extra.
Proof.
  induction authors as [|[author_name author_slug] authors IH]; intros log.
  - exists 0%nat, []. cbn. rewrite app_nil_r. now repeat split.
  - cbn [try_authors post].
    set (ask := QuestionTopicsList slug author_name).
    assert (forall log1 extra1,
      Forall (fun req => is_article_query req = true) extra1 ->
      log1 = (log ++ [ask]) ++ extra1 ->
      exists k extra,
        (k <= length ((author_name, author_slug) :: authors))%nat /\
        snd (try_authors h slug authors log1) = log ++ extra /\
        filter is_listing_query extra
        = map (fun author => QuestionTopicsList slug (fst author))
              (firstn k ((author_name, author_slug) :: authors)) /\
        Forall (fun req => is_listing_query req || is_article_query req = true)
               extra) as Hnext.
    { intros log1 extra1 Hart ->.
      destruct (IH ((log ++ [ask]) ++ extra1)) as (k & extra & Hk & Hl & Hf & Ha).
      destruct (article_queries_are_no_listing extra1 Hart) as [Hf1 Ha1].
      exists (S k), (ask :: extra1 ++ extra).
      split; [cbn; lia|]. split.
      { rewrite Hl, <- !app_assoc. reflexivity. }
      split.
      { cbn [filter is_listing_query ask firstn map fst].
        now rewrite filter_app, Hf1, Hf. }
      constructor; [reflexivity|]. apply Forall_app. now split. }
    destruct (endpoint h log ask) as [|body].
    { apply (Hnext _ []); [constructor | now rewrite app_nil_r]. }
    destruct (read_edges body) as [articles|].
    2: { apply (Hnext _ []); [constructor | now rewrite app_nil_r]. }
    destruct (scan_articles_trace author_name author_slug articles
                (log ++ [ask])) as (extra1 & He & Hart).
    destruct (scan_articles h author_name author_slug articles (log ++ [ask]))
      as [[[c|]|] l']; cbn [snd] in He.
    + destruct (article_queries_are_no_listing extra1 Hart) as [Hf1 Ha1].
      exists 1%nat, (ask :: extra1). split; [cbn; lia|]. split.
      { cbn [snd]. rewrite He, <- app_assoc. reflexivity. }
      split.
      { cbn [filter is_listing_query ask firstn map fst]. now rewrite Hf1. }
      constructor; [reflexivity | exact Ha1].
    + now apply (Hnext _ extra1).
    + now apply (Hnext _ extra1).
Qed.

Lemma try_authors_no_articles :
  (forall log author_name,
     no_articles (endpoint h log (QuestionTopicsList slug author_name))) ->
  forall authors log,
    try_authors h slug authors log
    = (Return (JStr ARTICLE_ERROR),
       log ++ map (fun author => QuestionTopicsList slug (fst author)) authors).
Proof.
  intros Hnone.
  induction authors as [|[author_name author_slug] authors IH]; intros log.
  - cbn. now rewrite app_nil_r.
  - cbn [try_authors post map fst].
    destruct (Hnone log author_name) as [Hr | (body & Hr & [He | He])];
      rewrite Hr; try rewrite He; cbn [scan_articles];
      rewrite IH, <- app_assoc; reflexivity.
Qed.

End ArticlesOnAnyEndpoint.

(** X8. What [get_leetcode_question_solution_by_problem_id] returns is one
    of its two sentinel strings or a truthy value that some reply to an
    article query carried as the [content] of [data.solutionArticle]: it
    never returns empty content, [None] or a value of its own making. *)
Theorem solution_is_sentinel_or_served_content :
  forall (h : host) (fuel : nat) (problem_id : string) (l0 l2 : list request)
         (v : json),
  get_leetcode_question_solution_by_problem_id h fuel problem_id l0
  = (Return v, l2) ->
  v = JStr "No solution article found" \/
  v = JStr "Error fetching solution article" \/
  (Py.truthy v = true /\
   exists log article_slug,
     carries_content (endpoint h log (DiscussTopic article_slug)) v).
Proof.
  intros h fuel pid l0 l2 v H.
  unfold get_leetcode_question_solution_by_problem_id in H.
  destruct (find_leetcode_question_slug_by_problem_id h fuel pid l0)
    as [[slug| |] l1]; try discriminate.
  destruct (Py.eq_str slug NO_SLUG).
  - injection H as <- _. now left.
  - destruct (try_authors_sound h slug _ _ _ _ H) as [Ho | (c & Ho & Hc)].
    + injection Ho as ->. right. now left.
    + injection Ho as ->. right. now right.
Qed.

Lemma solution_is_sentinel_or_served_content_witness :
  JStr "# solution" = JStr "No solution article found" \/
  JStr "# solution" = JStr "Error fetching solution article" \/
  (Py.truthy (JStr "# solution") = true /\
   exists log article_slug,
     carries_content (endpoint demo_host log (DiscussTopic article_slug))
                     (JStr "# solution")).
Proof.
  apply (solution_is_sentinel_or_served_content demo_host 1 "1" []
           [ProblemsetQuestionListV2 "1" 0 100;
            QuestionTopicsList (JStr "two-sum") "宫水三叶";
            DiscussTopic (JStr "b0");
            QuestionTopicsList (JStr "two-sum") "灵茶山艾府";
            DiscussTopic (JStr "a1")]).
  reflexivity.
Defined.

(** X9. Whatever the endpoint answers, after the slug lookup
    [get_leetcode_question_solution_by_problem_id] makes listing and article
    queries only; its listing queries carry the resolved slug and are, in
    order, those of an initial part of the allow-list: at most one per
    author, none out of order, none repeated. *)
Theorem solution_requests_follow_allow_list :
  forall (h : host) (fuel : nat) (problem_id : string) (l0 l1 : list request)
         (slug : json),
  find_leetcode_question_slug_by_problem_id h fuel problem_id l0
  = (Return slug, l1) ->
  exists k extra,
    (k <= 2)%nat /\
    snd (get_leetcode_question_solution_by_problem_id h fuel problem_id l0)
    = l1 ++ extra /\
    filter is_listing_query extra
    = map (fun author => QuestionTopicsList slug (fst author))
          (firstn k WANTED_AUTHORS) /\
    Forall (fun req => is_listing_query req || is_article_query req = true)
           extra.
Proof.
  intros h fuel pid l0 l1 slug Hfind.
  unfold get_leetcode_question_solution_by_problem_id. rewrite Hfind.
  destruct (Py.eq_str slug NO_SLUG).
  - exists 0%nat, []. cbn. rewrite app_nil_r. repeat split; [lia|constructor].
  - exact (try_authors_trace h slug WANTED_AUTHORS l1).
Qed.

Lemma solution_requests_follow_allow_list_witness :
  exists k extra,
    (k <= 2)%nat /\
    snd (get_leetcode_question_solution_by_problem_id demo_host 1 "1" [])
    = [ProblemsetQuestionListV2 "1" 0 100] ++ extra /\
    filter is_listing_query extra
    = map (fun author => QuestionTopicsList (JStr "two-sum") (fst author))
          (firstn k WANTED_AUTHORS) /\
    Forall (fun req => is_listing_query req || is_article_query req = true)
           extra.
Proof.
  apply (solution_requests_follow_allow_list demo_host 1 "1" []).
  reflexivity.
Defined.

(** X10. When every listing query fails, cannot be read or lists nothing,
    [get_leetcode_question_solution_by_problem_id] still asks for each
    author of the allow-list, in order, fetches no article, and returns
    exactly ["Error fetching solution article"]: a failure for one author
    does not end the search. *)
Theorem solution_without_articles_asks_every_author :
  forall (h : host) (fuel : nat) (problem_id : string) (l0 l1 : list request)
         (slug : json),
  find_leetcode_question_slug_by_problem_id h fuel problem_id l0
  = (Return slug, l1) ->
  Py.eq_str slug "No slug found" = false ->
  (forall log author_name,
     no_articles (endpoint h log (QuestionTopicsList slug author_name))) ->
  get_leetcode_question_solution_by_problem_id h fuel problem_id l0
  = (Return (JStr "Error fetching solution article"),
     l1 ++ [QuestionTopicsList slug "宫水三叶";
            QuestionTopicsList slug "灵茶山艾府"]).
Proof.
  intros h fuel pid l0 l1 slug Hfind Hslug Hnone.
  unfold get_leetcode_question_solution_by_problem_id.
  rewrite Hfind. unfold NO_SLUG. rewrite Hslug.
  now rewrite (try_authors_no_articles h slug Hnone).
Qed.

Lemma solution_without_articles_witness :
  get_leetcode_question_solution_by_problem_id mock_host 1 "42" []
  = (Return (JStr "Error fetching solution article"),
     [ProblemsetQuestionListV2 "42" 0 100] ++
     [QuestionTopicsList (JStr "answer-slug") "宫水三叶";
      QuestionTopicsList (JStr "answer-slug") "灵茶山艾府"]).
Proof.
  apply (solution_without_articles_asks_every_author mock_host 1 "42" []).
  - reflexivity.
  - reflexivity.
  - intros log author_name. left. reflexivity.
Defined.

(** X11. [_get_leetcode_article] makes exactly one article query and returns
    the [content] field of [data.solutionArticle] when that is an object
    holding one; in every other case (a failed request, a missing key, a
    [null], a list, a string or a number in its place, an object without
    [content]) it returns [None], and it never raises. *)
Theorem get_article_returns_content_field_only :
  forall (h : host) (article_slug : json) (log : list request),
  snd (_get_leetcode_article h article_slug log)
  = log ++ [DiscussTopic article_slug] /\
  (forall v,
     carries_content (endpoint h log (DiscussTopic article_slug)) v ->
     fst (_get_leetcode_article h article_slug log) = v) /\
  ((forall v,
      ~ carries_content (endpoint h log (DiscussTopic article_slug)) v) ->
   fst (_get_leetcode_article h article_slug log) = JNull).
Proof.
  intros h s log. split; [|split].
  - now rewrite get_article_closed.
  - intros v. apply get_article_carried.
  - apply get_article_not_carried.
Qed.

(** X12. Whatever [get_leetcode_question_desc] returns is the text of a
    description file on the local disk, named by the language setting in
    the directory of some path: it never returns anything the endpoint
    sent. *)
Theorem desc_returns_only_file_text :
  forall (h : host) (fuel : nat) (file_path : string) (log l : list request)
         (v : json),
  get_leetcode_question_desc h fuel file_path log = (Return v, l) ->
  exists path contents,
    disk h (path_join h (path_parent h path)
              (if String.eqb (LANGUAGE h) "zh-CN" then "problem_zh.md"
               else "problem.md"))
    = Text contents /\
    v = JStr contents.
Proof.
  intros h. induction fuel as [|fuel IH]; intros file_path log l v H;
    [discriminate|].
  cbn [get_leetcode_question_desc] in H. unfold problem_file_name in H.
  destruct (disk h _) as [|contents|] eqn:Hfile.
  - destruct (find_leetcode_question_slug h (S fuel) file_path log)
      as [[slug| |] l']; try discriminate.
    destruct slug; try discriminate.
    exact (IH _ _ _ _ H).
  - injection H as <- _. now exists file_path, contents.
  - discriminate.
Qed.

Lemma desc_returns_only_file_text_witness :
  exists path contents,
    disk (two_sum_host cached_files)
      (path_join (two_sum_host cached_files)
         (path_parent (two_sum_host cached_files) path)
         (if String.eqb (LANGUAGE (two_sum_host cached_files)) "zh-CN"
          then "problem_zh.md" else "problem.md"))
    = Text contents /\
    JStr "# 1. Two Sum" = JStr contents.
Proof.
  apply (desc_returns_only_file_text (two_sum_host cached_files) 1
           "problems/problems_1/solution.py" [] []).
  reflexivity.
Defined.

(** X13. For a file whose folder is named [<prefix>_<id>], with no
    underscore in the prefix and neither underscore nor [Interview] in the
    identifier, the file-path tools are the by-identifier tools at [<id>]:
    [find_leetcode_question_slug] is
    [find_leetcode_question_slug_by_problem_id] and
    [get_leetcode_question_solution] is
    [get_leetcode_question_solution_by_problem_id], result and requests
    alike. *)
Theorem file_path_tools_use_folder_identifier :
  forall (h : host) (fuel : nat) (file_path p id : string)
         (log : list request),
  path_name h (path_parent h file_path) = (p ++ String "_" id)%string ->
  PyStr.has_char "_" p = false ->
  PyStr.has_char "_" id = false ->
  PyStr.contains "Interview" id = false ->
  find_leetcode_question_slug h fuel file_path log
  = find_leetcode_question_slug_by_problem_id h fuel id log /\
  get_leetcode_question_solution h fuel file_path log
  = get_leetcode_question_solution_by_problem_id h fuel id log.
Proof.
  intros h fuel file_path p id log Hname Hp Hid Hi.
  assert (_folder_name_to_problem_id (path_name h (path_parent h file_path))
          = id) as Hnorm.
  { rewrite Hname. unfold _folder_name_to_problem_id.
    rewrite (strip_prefix_at_first_underscore p id Hp).
    unfold dunder_to_dot.
    rewrite (no_char_no_contains "_" "__" id eq_refl Hid).
    unfold underscore_to_space.
    rewrite (contains_char_has_char "_"), Hid.
    rewrite (jz_offer_idle id Hid). unfold interview. now rewrite Hi. }
  unfold find_leetcode_question_slug, get_leetcode_question_solution.
  now rewrite Hnorm.
Qed.

Lemma file_path_tools_witness :
  find_leetcode_question_slug mock_host 1 "problems/problems_42/solution.py" []
  = find_leetcode_question_slug_by_problem_id mock_host 1 "42" [] /\
  get_leetcode_question_solution mock_host 1
    "problems/problems_42/solution.py" []
  = get_leetcode_question_solution_by_problem_id mock_host 1 "42" [].
Proof.
  apply (file_path_tools_use_folder_identifier mock_host 1
           "problems/problems_42/solution.py" "problems" "42" []);
    reflexivity.
Defined.



(** ** Termination once the pages end *)

Lemma find_slug_from_stable (h : host) (pid : string) :
  forall fuel start log v l,
    find_slug_from h fuel pid start log = (Return v, l) ->
    forall fuel', (fuel <= fuel')%nat ->
      find_slug_from h fuel' pid start log = (Return v, l).
Proof.
  induction fuel as [|fuel IH]; intros start log v l H fuel' Hle;
    [discriminate|].
  destruct fuel' as [|fuel']; [lia|].
  cbn [find_slug_from post] in *.
  destruct (endpoint h log (page_request pid start)) as [|body];
    [exact H|].
  destruct (read_page pid body) as [[slug| |]|]; try exact H.
  apply (IH _ _ _ _ H). lia.
Qed.

Lemma read_desc_some (h : host) (body v : json) :
  read_desc h body = Some v -> leaf_at body (content_key (LANGUAGE h)) v.
Proof.
  unfold read_desc, Py.bind. intros H.
  destruct (Py.getitem body "data") as [data|] eqn:Hd; [|discriminate].
  destruct (Py.getitem data "question") as [question|] eqn:Hq; [|discriminate].
  now exists data, question.
Qed.

Section PagesEnd.

Variable h : host.
Variable N : nat.
Hypothesis Hbound : forall log pid k,
  (N <= k)%nat -> ~ reports_more (endpoint h log (page_query pid k)).

Lemma lookup_settles_by_id (pid : string) :
  lookup_settles h N pid
    (fun fuel => find_leetcode_question_slug_by_problem_id h fuel pid).
Proof.
  intros log. unfold find_leetcode_question_slug_by_problem_id.
  destruct (find_slug_from_returns h N Hbound pid (S N) 0 log)
    as (v & l & Hrun); [lia | lia |].
  destruct (find_slug_from_trace h pid (S N) 0 log) as (k & Hk & Hlog & _).
  rewrite Hrun in Hlog. cbn [snd] in Hlog. subst l.
  exists v, k. split; [exact Hk|]. split.
  - destruct (find_slug_from_sound h pid _ _ _ _ _ Hrun)
      as [Hv | (j & body & Hb & Ho & _)]; [now left|].
    right. now exists j, body.
  - intros fuel Hlt. apply (find_slug_from_stable h pid _ _ _ _ _ Hrun). lia.
Qed.

Lemma solution_settles_by_id (pid : string) :
  solution_settles h N pid
    (fun fuel => get_leetcode_question_solution_by_problem_id h fuel pid).
Proof.
  intros log.
  destruct (lookup_settles_by_id pid log) as (slug & k & Hk & _ & Hfind).
  unfold get_leetcode_question_solution_by_problem_id.
  destruct (Py.eq_str slug NO_SLUG) eqn:Hslug.
  - exists (JStr NO_ARTICLE), k, []. split; [exact Hk|].
    split; [constructor|]. split; [now left|].
    intros fuel Hlt. rewrite (Hfind fuel Hlt), Hslug, app_nil_r. reflexivity.
  - destruct (try_authors_returns h slug WANTED_AUTHORS
                (log ++ page_queries pid k)) as (v & l & Hrun).
    destruct (try_authors_trace h slug WANTED_AUTHORS
                (log ++ page_queries pid k)) as (n & extra & _ & Hlog & _ & Hreq).
    rewrite Hrun in Hlog. cbn [snd] in Hlog. subst l.
    exists v, k, extra. split; [exact Hk|]. split; [exact Hreq|]. split.
    + destruct (try_authors_sound h slug _ _ _ _ Hrun) as [Ho | (c & Ho & Hc)].
      * injection Ho as ->. right. now left.
      * injection Ho as ->. right. now right.
    + intros fuel Hlt. rewrite (Hfind fuel Hlt), Hslug, Hrun.
      now rewrite app_assoc.
Qed.

Lemma desc_by_problem_id_settles (pid : string) (log : list request) :
  exists v,
    (v = JStr "No description found" \/
     exists body,
       endpoint h log (content_query (LANGUAGE h) pid) = Body body /\
       leaf_at body (content_key (LANGUAGE h)) v) /\
    get_leetcode_question_desc_by_problem_id h pid log
    = (Return v, log ++ [content_query (LANGUAGE h) pid]).
Proof.
  unfold get_leetcode_question_desc_by_problem_id,
    _get_leetcode_question_desc_by_slug, post.
  change (desc_request h pid) with (content_query (LANGUAGE h) pid).
  destruct (endpoint h log (content_query (LANGUAGE h) pid)) as [|body] eqn:Hr.
  - eexists. split; [now left | reflexivity].
  - destruct (read_desc h body) as [v|] eqn:Hd.
    + exists v. split; [|reflexivity].
      right. exists body. split; [reflexivity|]. now apply read_desc_some.
    + eexists. split; [now left | reflexivity].
Qed.

End PagesEnd.

(** C2, amended. When the endpoint stops announcing further pages from some
    page [N] on, none of the tools below raises, and:
    [find_leetcode_question_slug_by_problem_id] and
    [find_leetcode_question_slug] end with the same value and requests for
    every budget beyond [N], after at most [N + 1] pages asked in order, the
    value being ["No slug found"] or a [titleSlug] the endpoint listed for
    the identifier; [get_leetcode_question_solution_by_problem_id] and
    [get_leetcode_question_solution] end likewise, the value being one of
    their two sentinels or truthy content that an article reply carried;
    [get_leetcode_question_desc_by_problem_id] always ends after its one
    query, with ["No description found"] or the field as the endpoint sent
    it; [get_leetcode_question_desc] returns the text of the cache file when
    that file is there and readable. *)
Theorem tools_return_when_pages_end :
  forall (h : host) (N : nat),
  (forall log pid k,
     (N <= k)%nat ->
     ~ reports_more
         (endpoint h log (ProblemsetQuestionListV2 pid (Z.of_nat k * 100) 100))) ->
  (forall pid,
     lookup_settles h N pid
       (fun fuel => find_leetcode_question_slug_by_problem_id h fuel pid)) /\
  (forall file_path,
     lookup_settles h N
       (_folder_name_to_problem_id (path_name h (path_parent h file_path)))
       (fun fuel => find_leetcode_question_slug h fuel file_path)) /\
  (forall pid,
     solution_settles h N pid
       (fun fuel => get_leetcode_question_solution_by_problem_id h fuel pid)) /\
  (forall file_path,
     solution_settles h N
       (_folder_name_to_problem_id (path_name h (path_parent h file_path)))
       (fun fuel => get_leetcode_question_solution h fuel file_path)) /\
  (forall pid log, exists v,
     (v = JStr "No description found" \/
      exists body,
        endpoint h log (content_query (LANGUAGE h) pid) = Body body /\
        leaf_at body (content_key (LANGUAGE h)) v) /\
     get_leetcode_question_desc_by_problem_id h pid log
     = (Return v, log ++ [content_query (LANGUAGE h) pid])) /\
  (forall fuel file_path log contents,
     disk h (path_join h (path_parent h file_path)
               (if String.eqb (LANGUAGE h) "zh-CN" then "problem_zh.md"
                else "problem.md"))
     = Text contents ->
     get_leetcode_question_desc h (S fuel) file_path log
     = (Return (JStr contents), log)).
Proof.
  intros h N Hbound.
  split; [exact (lookup_settles_by_id h N Hbound)|].
  split; [intros file_path; apply (lookup_settles_by_id h N Hbound)|].
  split; [exact (solution_settles_by_id h N Hbound)|].
  split; [intros file_path; apply (solution_settles_by_id h N Hbound)|].
  split; [exact (desc_by_problem_id_settles h)|].
  intros fuel file_path log contents Hfile.
  cbn [get_leetcode_question_desc]. unfold problem_file_name.
  now rewrite Hfile.
Qed.

Lemma two_page_host_ends : forall log pid k,
  (1 <= k)%nat ->
  ~ reports_more
      (endpoint two_page_host log
         (ProblemsetQuestionListV2 pid (Z.of_nat k * 100) 100)).
Proof.
  intros log pid k Hk (body & data & res & hm & Hr & Hd & Hres & Hm & Ht).
  unfold two_page_host, posix_host in Hr. cbn [endpoint] in Hr.
  destruct (Z.eqb_spec (Z.of_nat k * 100) 0) as [E|_]; [lia|].
  destruct (Z.of_nat k * 100 =? 100); [|discriminate].
  injection Hr as <-.
  cbn in Hd. injection Hd as <-.
  cbn in Hres. injection Hres as <-.
  cbn in Hm. injection Hm as <-.
  discriminate.
Qed.

(** By the theorem, on the two-page endpoint, whose first page turns: the
    lookup of problem 7 gives its slug after two pages, for every budget
    beyond one page. *)
Lemma tools_return_witness :
  forall_budgets_beyond 1 (fun fuel =>
    find_leetcode_question_slug_by_problem_id two_page_host fuel "7" []
    = (Return (JStr "seven"),
       [ProblemsetQuestionListV2 "7" 0 100;
        ProblemsetQuestionListV2 "7" 100 100])).
Proof.
  destruct (tools_return_when_pages_end two_page_host 1 two_page_host_ends)
    as [Hlookup _].
  destruct (Hlookup "7" []) as (v & k & _ & _ & Hrun).
  intros fuel Hlt. rewrite (Hrun fuel Hlt).
  rewrite <- (Hrun 2%nat (Nat.lt_succ_diag_r 1)). reflexivity.
Defined.
